(** * Prototype Survival Report UI: the input-normalization core

    A shallow embedding of the pure functions of
    [src/components/ReportPage.tsx] ([translateRisk], [clampScore],
    [normalizeString], [asRiskArray], [mapToReport], the upload handlers of
    [ReportPage]) and of the [analysis] memo of
    [ArcSightExecutiveSummary], with the properties the specification
    states about them.

    Conventions of the embedding.
    - A JavaScript string is the list of its UTF-16 code units.  Literals of
      the source are written with [js], which decodes the UTF-8 bytes of a
      Rocq string literal into code units, so that the text of every literal
      is the text of the source.
    - A JavaScript number is [NaN], an infinity, or a finite value.  Every
      finite double is a rational, and [Math.round], [Math.min] and
      [Math.max] are exact on doubles, so finite numbers are embedded in [Q];
      a statement about every rational covers every double.  The sign of zero
      is not represented ([-0 === 0], and [Math.max(0, -0)] is [+0]).
    - A value is what [JSON.parse] can return, plus [undefined] (the result
      of reading an absent property).  Objects are finite maps from property
      names to values.
    - Code that can throw returns a [completion]. *)

From Stdlib Require Import ZArith NArith QArith Qround Lia List.
From Stdlib Require Import Strings.String Strings.Ascii.
From stdpp Require Import base option list gmap.

Set Warnings "-register-all".
#[local] Open Scope N_scope.

(** ** Strings *)

Abbreviation jsstring := (list N).

Module Utf.

(** Code points of a UTF-8 byte sequence (well-formed input assumed: the
    literals of the source file). *)
Fixpoint utf8_decode (bs : list N) : list N :=
  match bs with
  | [] => []
  | b0 :: r0 =>
    if b0 <? 0x80 then b0 :: utf8_decode r0
    else
      match r0 with
      | [] => []
      | b1 :: r1 =>
        if b0 <? 0xE0 then ((b0 mod 0x20) * 0x40 + b1 mod 0x40) :: utf8_decode r1
        else
          match r1 with
          | [] => []
          | b2 :: r2 =>
            if b0 <? 0xF0
            then ((b0 mod 0x10) * 0x1000 + (b1 mod 0x40) * 0x40 + b2 mod 0x40)
                   :: utf8_decode r2
            else
              match r2 with
              | [] => []
              | b3 :: r3 =>
                ((b0 mod 0x08) * 0x40000 + (b1 mod 0x40) * 0x1000
                 + (b2 mod 0x40) * 0x40 + b3 mod 0x40) :: utf8_decode r3
              end
          end
      end
  end.

(** UTF-16 code units of one code point. *)
Definition utf16_units (cp : N) : list N :=
  if cp <? 0x10000 then [cp]
  else [0xD800 + (cp - 0x10000) / 0x400; 0xDC00 + (cp - 0x10000) mod 0x400].

Definition bytes (s : string) : list N :=
  List.map N_of_ascii (list_ascii_of_string s).

End Utf.

(** The JavaScript string written by the literal [s]. *)
Definition js (s : string) : jsstring :=
  flat_map Utf.utf16_units (Utf.utf8_decode (Utf.bytes s)).
Arguments js s%_string.

(** ECMAScript [WhiteSpace] and [LineTerminator] code points, the
    characters [String.prototype.trim] strips. *)
Definition isWhiteSpace (c : N) : bool :=
  (c =? 0x0009) || (c =? 0x000A) || (c =? 0x000B) || (c =? 0x000C)
  || (c =? 0x000D) || (c =? 0x0020) || (c =? 0x00A0) || (c =? 0x1680)
  || ((0x2000 <=? c) && (c <=? 0x200A))
  || (c =? 0x2028) || (c =? 0x2029) || (c =? 0x202F) || (c =? 0x205F)
  || (c =? 0x3000) || (c =? 0xFEFF).

Fixpoint trimStart (s : jsstring) : jsstring :=
  match s with
  | [] => []
  | c :: s' => if isWhiteSpace c then trimStart s' else s
  end.

Fixpoint trimEnd (s : jsstring) : jsstring :=
  match s with
  | [] => []
  | c :: s' =>
    match trimEnd s' with
    | [] => if isWhiteSpace c then [] else [c]
    | t => c :: t
    end
  end.

(** [String.prototype.trim] *)
Definition trim (s : jsstring) : jsstring := trimEnd (trimStart s).

(** Truthiness of a string: it is not empty. *)
Definition truthy_string (s : jsstring) : bool :=
  match s with [] => false | _ => true end.

(** ** Numbers *)

Inductive number : Type :=
| NaN
| Infinity (negative : bool)
| Finite (q : Q).

Definition int (z : Z) : number := Finite (inject_Z z).

Definition Number_isNaN (n : number) : bool :=
  match n with NaN => true | _ => false end.

Definition Number_isFinite (n : number) : bool :=
  match n with Finite _ => true | _ => false end.

(** [Math.round]: the closest integer, a tie going toward +infinity. *)
Definition Math_round (n : number) : number :=
  match n with
  | Finite q => int (Qfloor (q + (1 # 2)))
  | _ => n
  end.

Definition Math_max (a b : number) : number :=
  match a, b with
  | NaN, _ | _, NaN => NaN
  | Infinity false, _ | _, Infinity false => Infinity false
  | Infinity true, x | x, Infinity true => x
  | Finite p, Finite q => if Qle_bool p q then Finite q else Finite p
  end.

Definition Math_min (a b : number) : number :=
  match a, b with
  | NaN, _ | _, NaN => NaN
  | Infinity true, _ | _, Infinity true => Infinity true
  | Infinity false, x | x, Infinity false => x
  | Finite p, Finite q => if Qle_bool p q then Finite p else Finite q
  end.

(** ** Values *)

Inductive value : Type :=
| VUndefined
| VNull
| VBool (b : bool)
| VNumber (n : number)
| VString (s : jsstring)
| VArray (items : list value)
| VObject (props : gmap jsstring value).

Inductive jstype : Type :=
| TUndefined | TObject | TBoolean | TNumber | TString.

Definition typeof (v : value) : jstype :=
  match v with
  | VUndefined => TUndefined
  | VNull => TObject
  | VBool _ => TBoolean
  | VNumber _ => TNumber
  | VString _ => TString
  | VArray _ => TObject
  | VObject _ => TObject
  end.

Definition is_object_type (t : jstype) : bool :=
  match t with TObject => true | _ => false end.

Definition is_null (v : value) : bool :=
  match v with VNull => true | _ => false end.

(** The test of [a ?? b]: [a] is [null] or [undefined]. *)
Definition nullish (v : value) : bool :=
  match v with VUndefined | VNull => true | _ => false end.

Definition Array_isArray (v : value) : bool :=
  match v with VArray _ => true | _ => false end.

(** ** Completions *)

Inductive exn : Type :=
| TypeError
| SyntaxError
| Error (message : jsstring).

Inductive completion (A : Type) : Type :=
| Normal (a : A)
| Throw (e : exn).
Arguments Normal {A} a.
Arguments Throw {A} e.

#[global] Instance completion_ret : MRet completion := @Normal.
#[global] Instance completion_bind : MBind completion :=
  fun A B k c => match c with Normal a => k a | Throw e => Throw e end.

(** [v.k] for the property names this module reads.  Reading a property of
    [null] or [undefined] throws a [TypeError]; an object yields its own
    property or [undefined]; a boolean, number, string or array yields
    [undefined], none of the names read here being an index, [length] or a
    member of a built-in prototype. *)
Definition Get (v : value) (k : jsstring) : completion value :=
  match v with
  | VUndefined | VNull => Throw TypeError
  | VObject props => Normal (default VUndefined (props !! k))
  | _ => Normal VUndefined
  end.

(** [a ?? b], the right operand evaluated only when needed. *)
Definition coalesce (a : value) (b : completion value) : completion value :=
  if nullish a then b else Normal a.

(** ** [ReportPage.tsx]: data *)

Record Risk : Type := {
  type : jsstring;
  filePath : jsstring;
  explanation : jsstring;
}.

Record ReportData : Type := {
  structuralViabilityScore : number;
  stage : jsstring;
  summary : jsstring;
  recommendedNextStep : jsstring;
  risks : list Risk;
}.

Definition placeholderReport : ReportData := {|
  structuralViabilityScore := int 0;
  stage := js "Awaiting Analysis";
  summary := js "Your app works today — but it won't let you grow safely.

This is the moment where prototypes either evolve... or break.

Your app works now, but it isn't built to survive real features, users, or growth.

It looks like a product — but it's still structured like a prototype.

The more you build on top of this structure (auth, teams, payments, workflows),
the more it begins to resist change.

You're not in trouble. You're just at the natural turning point —
where speed must start meeting structure.";
  recommendedNextStep := js "You don't need to start over.

But you do need to graduate.";
  risks := [];
|}.

Record RiskTranslation : Type := {
  label : jsstring;
  severity : jsstring;
  message : jsstring;
}.

(** ** [ReportPage.tsx]: functions *)

Definition translateRisk (riskType : jsstring) : RiskTranslation :=
  let normalized := trim riskType in
  if decide (normalized = js "APICallInUI") then
    {| label := js "Business logic mixed into UI";
       severity := js "🔴 High Risk";
       message := js "Works for demos, but fragile when adding auth, workflows, or team features." |}
  else if decide (normalized = js "LogicInUI") then
    {| label := js "Logic tangled inside components";
       severity := js "🟠 Medium Risk";
       message := js "Hard to test, hard to change — every new feature increases risk." |}
  else if decide (normalized = js "FlatStructure") then
    {| label := js "Prototype-only folder structure";
       severity := js "🔴 Critical Risk";
       message := js "Everything lives in one folder — evolution will be painful." |}
  else if decide (normalized = js "HugeComponent") then
    {| label := js "Giant 'God' component";
       severity := js "🟡 Medium-Low Risk";
       message := js "One file doing too many jobs — a sign of structural fragility." |}
  else if decide (normalized = js "CircularImport") then
    {| label := js "Circular dependency risk";
       severity := js "🔴 Critical Risk";
       message := js "Features begin to break randomly when files depend on each other in loops." |}
  else
    {| label := riskType;
       severity := js "⚪ Unknown Risk";
       message := js "Risk type not recognized — may indicate structural issues." |}.

Definition clampScore (score : value) : number :=
  match score with
  | VNumber n =>
    if Number_isNaN n then int 0
    else if negb (Number_isFinite n) then int 0
    else Math_min (int 100) (Math_max (int 0) (Math_round n))
  | _ => int 0
  end.

Definition normalizeString (v : value) (fallback : jsstring) : jsstring :=
  match v with
  | VString s => if truthy_string (trim s) then trim s else fallback
  | _ => fallback
  end.

(** The callback of [value.map] in [asRiskArray]; [None] is its [null]. *)
Definition riskOfItem (item : value) : completion (option Risk) :=
  if negb (is_object_type (typeof item)) || is_null item then mret None
  else
    t ← Get item (js "type");
    f ← Get item (js "file");
    fp ← coalesce f (Get item (js "filePath"));
    w ← Get item (js "why");
    wm ← coalesce w (Get item (js "whyItMatters"));
    e ← coalesce wm (Get item (js "explanation"));
    mret (Some {| type := normalizeString t (js "Not provided");
                  filePath := normalizeString fp (js "Not provided");
                  explanation := normalizeString e (js "Not provided") |}).

(** [.filter(Boolean)] on a list of risks and [null]s. *)
Fixpoint filter_Boolean (l : list (option Risk)) : list Risk :=
  match l with
  | [] => []
  | Some r :: l' => r :: filter_Boolean l'
  | None :: l' => filter_Boolean l'
  end.

Definition asRiskArray (v : value) : completion (list Risk) :=
  if negb (Array_isArray v) then mret []
  else
    match v with
    | VArray items =>
      mapped ← mapM riskOfItem items;
      mret (filter_Boolean mapped)
    | _ => mret []
    end.

Definition mapToReport (raw : value) : completion ReportData :=
  s ← Get raw (js "structuralViabilityScore");
  score ← coalesce s (Get raw (js "viabilityScore"));
  st ← Get raw (js "stage");
  su ← Get raw (js "summary");
  n ← Get raw (js "recommendedNextStep");
  next ← coalesce n (Get raw (js "nextStep"));
  rs ← Get raw (js "risks");
  risks ← asRiskArray rs;
  mret {| structuralViabilityScore := clampScore score;
          stage := normalizeString st (js "Not provided");
          summary := normalizeString su (summary placeholderReport);
          recommendedNextStep := normalizeString next (recommendedNextStep placeholderReport);
          risks := risks |}.

(** ** [ReportPage]: display state and upload handlers *)

Record File : Type := { name : jsstring }.

(** The [useState] cells of [ReportPage]. *)
Record state : Type := {
  report : ReportData;
  isPlaceholder : bool;
  error : option jsstring;
  fileName : option jsstring;
}.

Definition initial : state := {|
  report := placeholderReport;
  isPlaceholder := true;
  error := None;
  fileName := None;
|}.

(** What [reader.onload] finds: [reader.result] is not a string, or it is a
    text, given here by the completion of [JSON.parse] on it (a
    [SyntaxError] when the text is not JSON). *)
Inductive loaded : Type :=
| NotAString
| Text (parse : completion value).

(** The synchronous part of [handleFileChange]: nothing without a file,
    else [setError(null)] before the read starts. *)
Definition handleFileChange (file : option File) (st : state) : state :=
  match file with
  | None => st
  | Some _ =>
    {| report := report st; isPlaceholder := isPlaceholder st;
       error := None; fileName := fileName st |}
  end.

(** The [try] block of [reader.onload], up to the first state update. *)
Definition onload_try (l : loaded) : completion ReportData :=
  match l with
  | NotAString => Throw (Error (js "Unable to read file contents."))
  | Text parse => parsed ← parse; mapToReport parsed
  end.

Definition reader_onload (file : File) (l : loaded) (st : state) : state :=
  match onload_try l with
  | Normal normalized =>
    {| report := normalized; isPlaceholder := false;
       error := error st; fileName := Some (name file) |}
  | Throw _ =>
    {| report := placeholderReport; isPlaceholder := true;
       error := Some (js "We could not parse that file. Please confirm it is valid JSON.");
       fileName := None |}
  end.

Definition reader_onerror (st : state) : state :=
  {| report := report st; isPlaceholder := isPlaceholder st;
     error := Some (js "Something went wrong while reading that file. Please try again.");
     fileName := fileName st |}.

(** One upload: the file is selected, then the read ends in [onerror] or
    in [onload]. *)
Inductive outcome : Type :=
| ReadFailed
| ReadDone (l : loaded).

Definition upload (file : File) (o : outcome) (st : state) : state :=
  let st1 := handleFileChange (Some file) st in
  match o with
  | ReadFailed => reader_onerror st1
  | ReadDone l => reader_onload file l st1
  end.

(** ** [ArcSightExecutiveSummary]: the [analysis] memo *)

Fixpoint startsWith (s p : jsstring) : bool :=
  match p, s with
  | [], _ => true
  | _ :: _, [] => false
  | c :: p', d :: s' => (c =? d) && startsWith s' p'
  end.

(** [String.prototype.includes] *)
Fixpoint includes (s sub : jsstring) : bool :=
  startsWith s sub
  || match s with
     | [] => false
     | _ :: s' => includes s' sub
     end.

Module ArcSight.

Inductive Severity : Type := high | medium | low.

Record Insight : Type := {
  id : Z;
  title : jsstring;
  severity : Severity;
  summary : jsstring;
  files : option (list jsstring);
  recommendation : option jsstring;
}.

Record Fragility : Type := {
  signal : jsstring;
  fragility_summary : jsstring;
}.

Definition is_high (s : Severity) : bool :=
  match s with high => true | _ => false end.
Definition is_medium (s : Severity) : bool :=
  match s with medium => true | _ => false end.

Section Analysis.

(** [String.prototype.toLowerCase], a function of the host. *)
Variable toLowerCase : jsstring -> jsstring.

Definition hasDatabaseRisk (insights : list Insight) : bool :=
  existsb (fun i =>
    includes (toLowerCase (title i)) (js "database")
    || includes (toLowerCase (title i)) (js "shared")
    || includes (toLowerCase (title i)) (js "schema")) insights.

Definition hasBottleneck (insights : list Insight) : bool :=
  existsb (fun i =>
    includes (toLowerCase (title i)) (js "auth")
    || includes (toLowerCase (title i)) (js "identity")
    || includes (toLowerCase (title i)) (js "bottleneck")
    || includes (toLowerCase (title i)) (js "god")) insights.

Definition hasExternalDependency (insights : list Insight) : bool :=
  existsb (fun i =>
    includes (toLowerCase (title i)) (js "stripe")
    || includes (toLowerCase (title i)) (js "3rd party")
    || includes (toLowerCase (title i)) (js "external")
    || includes (toLowerCase (title i)) (js "integration")) insights.

Definition hasCrossDomain (insights : list Insight) : bool :=
  existsb (fun i =>
    includes (toLowerCase (title i)) (js "cross-domain")
    || includes (toLowerCase (title i)) (js "coupling")
    || includes (toLowerCase (title i)) (js "domain")) insights.

Definition topFragilities (insights : list Insight) : list Fragility :=
  List.map
    (fun i =>
       let signal :=
         if includes (toLowerCase (title i)) (js "database")
            || includes (toLowerCase (title i)) (js "shared")
         then js "Shared Database Risk"
         else if includes (toLowerCase (title i)) (js "auth")
                 || includes (toLowerCase (title i)) (js "bottleneck")
         then js "Structural Bottleneck"
         else if includes (toLowerCase (title i)) (js "stripe")
                 || includes (toLowerCase (title i)) (js "integration")
         then js "External API Blast Radius"
         else if includes (toLowerCase (title i)) (js "cross-domain")
                 || includes (toLowerCase (title i)) (js "coupling")
         then js "Cross-Domain Coupling"
         else title i in
       {| signal := signal; fragility_summary := summary i |})
    (firstn 3
       (List.filter (fun i => is_high (severity i) || is_medium (severity i))
          insights)).

(** The insights [topFragilities] keeps: the first three of high or
    medium severity. *)
Definition selected (insights : list Insight) : list Insight :=
  firstn 3
    (List.filter (fun i => is_high (severity i) || is_medium (severity i))
       insights).

(** A title matches a keyword set when its lower-case form contains one of
    the keywords. *)
Definition matches (t : jsstring) (keywords : list jsstring) : bool :=
  existsb (fun k => includes (toLowerCase t) k) keywords.

(** The signal of a title under an ordered table of named keyword sets: the
    name of the first set the title matches, else the title itself. *)
Definition classify (table : list (jsstring * list jsstring)) (t : jsstring)
  : jsstring :=
  match List.find (fun entry => matches t (snd entry)) table with
  | Some entry => fst entry
  | None => t
  end.

(** The keyword sets tested by [topFragilities], in the order of its tests. *)
Definition signalTable : list (jsstring * list jsstring) :=
  [ (js "Shared Database Risk", [js "database"; js "shared"]);
    (js "Structural Bottleneck", [js "auth"; js "bottleneck"]);
    (js "External API Blast Radius", [js "stripe"; js "integration"]);
    (js "Cross-Domain Coupling", [js "cross-domain"; js "coupling"]) ].

(** The keyword sets of the four pattern flags [hasDatabaseRisk],
    [hasBottleneck], [hasExternalDependency], [hasCrossDomain], under the
    names of the four signals. *)
Definition flagTable : list (jsstring * list jsstring) :=
  [ (js "Shared Database Risk", [js "database"; js "shared"; js "schema"]);
    (js "Structural Bottleneck",
     [js "auth"; js "identity"; js "bottleneck"; js "god"]);
    (js "External API Blast Radius",
     [js "stripe"; js "3rd party"; js "external"; js "integration"]);
    (js "Cross-Domain Coupling",
     [js "cross-domain"; js "coupling"; js "domain"]) ].

(** The selection as the specification words it: each kept insight classified
    by the keyword policy of the pattern flags. *)
Definition spec_topFragilities (insights : list Insight) : list Fragility :=
  List.map
    (fun i => {| signal := classify flagTable (title i);
                 fragility_summary := summary i |})
    (selected insights).

End Analysis.

(** [toLowerCase] on a string of ASCII characters. *)
Definition toLowerCase_ascii (s : jsstring) : jsstring :=
  List.map (fun c => if (0x41 <=? c) && (c <=? 0x5A) then c + 0x20 else c) s.

End ArcSight.

(** ** Definitions used to state the properties *)

(** The property [k] of a value that is neither [null] nor [undefined]. *)
Definition prop (v : value) (k : jsstring) : value :=
  match v with
  | VObject props => default VUndefined (props !! k)
  | _ => VUndefined
  end.

(** [a ?? b] on values already read. *)
Definition or_else (a b : value) : value := if nullish a then b else a.

(** The element test of [asRiskArray]: [typeof item === 'object'] and
    [item !== null]. It holds of objects and of arrays. *)
Definition isRecord (item : value) : bool :=
  is_object_type (typeof item) && negb (is_null item).

(** The risk read from a surviving element. *)
Definition normalizeRisk (item : value) : Risk := {|
  type := normalizeString (prop item (js "type")) (js "Not provided");
  filePath :=
    normalizeString (or_else (prop item (js "file")) (prop item (js "filePath")))
      (js "Not provided");
  explanation :=
    normalizeString
      (or_else (or_else (prop item (js "why")) (prop item (js "whyItMatters")))
         (prop item (js "explanation")))
      (js "Not provided");
|}.

(** A string with content and no surrounding whitespace. *)
Definition Trimmed (s : jsstring) : Prop := s <> [] /\ trim s = s.

Definition WellFormedRisk (r : Risk) : Prop :=
  Trimmed (type r) /\ Trimmed (filePath r) /\ Trimmed (explanation r).

(** A valid Report: an integral score in [0, 100], every text present and
    not empty, every risk fully populated. *)
Definition WellFormed (r : ReportData) : Prop :=
  (exists k : Z, (0 <= k <= 100)%Z /\ structuralViabilityScore r = int k)
  /\ Trimmed (stage r) /\ Trimmed (summary r) /\ Trimmed (recommendedNextStep r)
  /\ Forall WellFormedRisk (risks r).

(** The JSON form of a report: what [JSON.parse(JSON.stringify(r))] is,
    an object with the five fields of [ReportData], its risks an array of
    objects with the three fields of [Risk]. *)
Definition riskToJSON (r : Risk) : value :=
  VObject (<[js "type" := VString (type r)]>
           (<[js "filePath" := VString (filePath r)]>
            (<[js "explanation" := VString (explanation r)]> ∅))).

Definition reportToJSON (r : ReportData) : value :=
  VObject (<[js "structuralViabilityScore" := VNumber (structuralViabilityScore r)]>
           (<[js "stage" := VString (stage r)]>
            (<[js "summary" := VString (summary r)]>
             (<[js "recommendedNextStep" := VString (recommendedNextStep r)]>
              (<[js "risks" := VArray (List.map riskToJSON (risks r))]> ∅))))).

(** The default case of [translateRisk]. *)
Definition unknownRisk (riskType : jsstring) : RiskTranslation :=
  {| label := riskType;
     severity := js "⚪ Unknown Risk";
     message := js "Risk type not recognized — may indicate structural issues." |}.

(** The risk of an element without any usable field. *)
Definition defaultRisk : Risk :=
  {| type := js "Not provided";
     filePath := js "Not provided";
     explanation := js "Not provided" |}.

(** The risks read from the [risks] property. *)
Definition risksOf (v : value) : list Risk :=
  match v with
  | VArray items => List.map normalizeRisk (List.filter isRecord items)
  | _ => []
  end.

(** The report [mapToReport] builds from a value it can read. *)
Definition normalized (raw : value) : ReportData := {|
  structuralViabilityScore :=
    clampScore (or_else (prop raw (js "structuralViabilityScore"))
                  (prop raw (js "viabilityScore")));
  stage := normalizeString (prop raw (js "stage")) (js "Not provided");
  summary := normalizeString (prop raw (js "summary")) (summary placeholderReport);
  recommendedNextStep :=
    normalizeString (or_else (prop raw (js "recommendedNextStep"))
                       (prop raw (js "nextStep")))
      (recommendedNextStep placeholderReport);
  risks := risksOf (prop raw (js "risks"));
|}.

(** The messages of the two failure paths. *)
Definition parseFailureMessage : jsstring :=
  js "We could not parse that file. Please confirm it is valid JSON.".

Definition readFailureMessage : jsstring :=
  js "Something went wrong while reading that file. Please try again.".

(** The display state after the [catch] block of [reader.onload]. *)
Definition parseFailure : state :=
  {| report := placeholderReport; isPlaceholder := true;
     error := Some parseFailureMessage; fileName := None |}.

(** An object literal. *)
Definition object (l : list (jsstring * value)) : value :=
  VObject (list_to_map l).

Arguments js : simpl never.

(** Literals are compared by evaluation ([vm_compute]), never unfolded by
    unification. *)
Opaque js.

(** ** [ReportPage]: what the page derives from the report *)

(** [a >= b] on numbers: false as soon as one side is [NaN]. *)
Definition ge (a b : number) : bool :=
  match a, b with
  | NaN, _ | _, NaN => false
  | Infinity false, _ => true
  | _, Infinity true => true
  | Infinity true, _ => false
  | _, Infinity false => false
  | Finite p, Finite q => Qle_bool q p
  end.

Definition getScoreTextColor (score : number) : jsstring :=
  if ge score (int 80) then js "text-green-600"
  else if ge score (int 60) then js "text-blue-600"
  else if ge score (int 40) then js "text-yellow-600"
  else js "text-red-600".

Record CardStyles : Type := {
  bg : jsstring;
  border : jsstring;
  text : jsstring;
  icon : jsstring;
}.

Definition getRiskCardStyles (severity : jsstring) : CardStyles :=
  if includes severity (js "🔴") && includes severity (js "Critical") then
    {| bg := js "bg-red-50"; border := js "border-red-300";
       text := js "text-red-800"; icon := js "🚨" |}
  else if includes severity (js "🔴") then
    {| bg := js "bg-red-50"; border := js "border-red-300";
       text := js "text-red-800"; icon := js "🚨" |}
  else if includes severity (js "🟠") then
    {| bg := js "bg-amber-50"; border := js "border-amber-300";
       text := js "text-amber-800"; icon := js "⚠️" |}
  else if includes severity (js "🟡") then
    {| bg := js "bg-blue-50"; border := js "border-blue-300";
       text := js "text-blue-800"; icon := js "ℹ️" |}
  else
    {| bg := js "bg-gray-50"; border := js "border-gray-300";
       text := js "text-gray-800"; icon := js "ℹ️" |}.

(** The stage pills of the Growth Stage section: [isCurrent] and [isActive]
    of the callback over [stageDefinitions], [index] the position of the
    pill (0 Prototype, 1 Graduation Moment, 2 Product-Ready). *)
Definition isCurrent (stage : jsstring) : bool :=
  bool_decide (stage = js "Graduation Moment")
  || includes stage (js "Graduation").

Definition isActive (stage : jsstring) (index : nat) : bool :=
  (isCurrent stage && (index =? 1)%nat)
  || (negb (isCurrent stage) && (index =? 0)%nat).

(** The events of the page, in the order the host delivers them: a change
    of the file input, the end of a read in [onload] or in [onerror]. *)
Inductive event : Type :=
| FileChange (file : option File)
| Onload (file : File) (l : loaded)
| Onerror.

Definition step (st : state) (e : event) : state :=
  match e with
  | FileChange file => handleFileChange file st
  | Onload file l => reader_onload file l st
  | Onerror => reader_onerror st
  end.

Definition run (es : list event) (st : state) : state :=
  fold_left step es st.

(** The display is coherent: a valid Report, the placeholder Report
    whenever the placeholder flag is set, a file name exactly when it is
    not. *)
Definition coherent (st : state) : Prop :=
  WellFormed (report st)
  /\ (isPlaceholder st = true -> report st = placeholderReport)
  /\ (isPlaceholder st = true <-> fileName st = None).

(** ** [ArcSightExecutiveSummary]: counts and narrative *)

Module ExecutiveSummary.
Import ArcSight.

Definition is_low (s : Severity) : bool :=
  match s with low => true | _ => false end.

(** [counts.high], [counts.medium], [counts.low] *)
Definition counts_high (insights : list Insight) : nat :=
  length (List.filter (fun i => is_high (severity i)) insights).
Definition counts_medium (insights : list Insight) : nat :=
  length (List.filter (fun i => is_medium (severity i)) insights).
Definition counts_low (insights : list Insight) : nat :=
  length (List.filter (fun i => is_low (severity i)) insights).

Definition total (insights : list Insight) : nat := length insights.

Definition hasHighRisk (insights : list Insight) : bool :=
  (0 <? counts_high insights)%nat.

(** The decimal text of a count, as a template literal prints it. *)
Fixpoint digits (u : Decimal.uint) : jsstring :=
  match u with
  | Decimal.Nil => []
  | Decimal.D0 u => 0x30 :: digits u
  | Decimal.D1 u => 0x31 :: digits u
  | Decimal.D2 u => 0x32 :: digits u
  | Decimal.D3 u => 0x33 :: digits u
  | Decimal.D4 u => 0x34 :: digits u
  | Decimal.D5 u => 0x35 :: digits u
  | Decimal.D6 u => 0x36 :: digits u
  | Decimal.D7 u => 0x37 :: digits u
  | Decimal.D8 u => 0x38 :: digits u
  | Decimal.D9 u => 0x39 :: digits u
  end.

Definition Number_toString (n : nat) : jsstring := digits (Nat.to_uint n).

(** [Array.prototype.join] *)
Fixpoint join (sep : jsstring) (l : list jsstring) : jsstring :=
  match l with
  | [] => []
  | x :: l' =>
    match l' with
    | [] => x
    | _ :: _ => x ++ sep ++ join sep l'
    end
  end.

Definition severityText (insights : list Insight) : list jsstring :=
  (if (0 <? counts_high insights)%nat
   then [Number_toString (counts_high insights) ++ js " High-Severity"]
   else [])
  ++ (if (0 <? counts_medium insights)%nat
      then [Number_toString (counts_medium insights) ++ js " Moderate"]
      else [])
  ++ (if (0 <? counts_low insights)%nat
      then [Number_toString (counts_low insights) ++ js " Low-Severity"]
      else []).

Definition riskText (insights : list Insight) : jsstring :=
  join (js " and ") (severityText insights)
  ++ (if (1 <? total insights)%nat then js " risks" else js " risk").

Definition narrative (insights : list Insight) : jsstring :=
  (js "ArcSight detected " ++ riskText insights
   ++ js " that could impact architectural stability, migration feasibility, and long-term roadmap agility.")
  ++ (if hasHighRisk insights
      then js " These structural fragilities can lead to:"
      else []).

End ExecutiveSummary.

(** ** [ArcSightInsightCard] *)

Module InsightCard.

Definition getSeverityStyles (severity : jsstring) : jsstring :=
  if decide (severity = js "High") then js "bg-red-500 text-white"
  else if decide (severity = js "Medium") then js "bg-yellow-400 text-black"
  else if decide (severity = js "Low") then js "bg-green-500 text-white"
  else js "bg-gray-500 text-white".

End InsightCard.

(** ** [ArcSightDashboard] *)

Module Dashboard.

Inductive FilterType : Type := All | High | Medium | Low.

Definition FilterType_string (f : FilterType) : jsstring :=
  match f with
  | All => js "All"
  | High => js "High"
  | Medium => js "Medium"
  | Low => js "Low"
  end.

(** The text of a severity tag. *)
Definition Severity_string (s : ArcSight.Severity) : jsstring :=
  match s with
  | ArcSight.high => js "high"
  | ArcSight.medium => js "medium"
  | ArcSight.low => js "low"
  end.

(** The three lists of [groupedInsights]. *)
Record Groups : Type := {
  high : list ArcSight.Insight;
  medium : list ArcSight.Insight;
  low : list ArcSight.Insight;
}.

(** The [forEach] of [groupedInsights]: each insight pushed at the end of
    the list of its severity. *)
Definition groupedInsights (filteredInsights : list ArcSight.Insight) : Groups :=
  fold_left
    (fun g insight =>
       match ArcSight.severity insight with
       | ArcSight.high =>
         {| high := high g ++ [insight]; medium := medium g; low := low g |}
       | ArcSight.medium =>
         {| high := high g; medium := medium g ++ [insight]; low := low g |}
       | ArcSight.low =>
         {| high := high g; medium := medium g; low := low g ++ [insight] |}
       end)
    filteredInsights
    {| high := []; medium := []; low := [] |}.

Section Filter.

(** [String.prototype.toLowerCase], a function of the host. *)
Variable toLowerCase : jsstring -> jsstring.

Definition normalizeSeverity (severity : jsstring) : jsstring :=
  let normalized := toLowerCase severity in
  if decide (normalized = js "high") then js "High"
  else if decide (normalized = js "medium") then js "Medium"
  else js "Low".

Definition filteredInsights (insights : list ArcSight.Insight)
    (activeFilter : FilterType) : list ArcSight.Insight :=
  match activeFilter with
  | All => insights
  | _ =>
    List.filter
      (fun insight =>
         bool_decide
           (toLowerCase (Severity_string (ArcSight.severity insight))
            = toLowerCase (FilterType_string activeFilter)))
      insights
  end.

End Filter.

(** The strings the dashboard lower-cases: the severity tags and the names
    of the filters. On them the host function is the ASCII one. *)
Definition lowers_tags (toLowerCase : jsstring -> jsstring) : Prop :=
  forall s,
    In s [js "high"; js "medium"; js "low"; js "High"; js "Medium"; js "Low"] ->
    toLowerCase s = ArcSight.toLowerCase_ascii s.

End Dashboard.

(** ** Strings: [trim] *)

Lemma trimStart_cases (s : jsstring) :
  trimStart s = [] \/
  exists c t, trimStart s = c :: t /\ isWhiteSpace c = false.
Proof.
  induction s as [|c s IH]; simpl; [now left|].
  destruct (isWhiteSpace c) eqn:Hc; [exact IH|].
  right. now exists c, s.
Qed.

Lemma trimEnd_cons_keep (c : N) (s : jsstring) :
  isWhiteSpace c = false -> exists t, trimEnd (c :: s) = c :: t.
Proof.
  intros Hc. simpl. destruct (trimEnd s) as [|d t].
  - rewrite Hc. now exists [].
  - now exists (d :: t).
Qed.

Lemma trimEnd_idem (s : jsstring) : trimEnd (trimEnd s) = trimEnd s.
Proof.
  induction s as [|c s IH]; simpl; [reflexivity|].
  destruct (trimEnd s) as [|d t] eqn:E.
  - destruct (isWhiteSpace c) eqn:Hc; simpl; [reflexivity|now rewrite Hc].
  - change (trimEnd (c :: d :: t)) with
      (match trimEnd (d :: t) with
       | [] => if isWhiteSpace c then [] else [c]
       | u => c :: u
       end).
    now rewrite IH.
Qed.

Lemma trim_idem (s : jsstring) : trim (trim s) = trim s.
Proof.
  unfold trim. destruct (trimStart_cases s) as [E | (c & t & E & Hc)].
  - now rewrite E.
  - rewrite E. destruct (trimEnd_cons_keep c t Hc) as [u Hu].
    rewrite Hu. simpl trimStart. rewrite Hc. rewrite <- Hu. apply trimEnd_idem.
Qed.

Lemma trim_Trimmed (s : jsstring) : truthy_string (trim s) = true -> Trimmed (trim s).
Proof.
  intros H. split; [|apply trim_idem].
  intros E. now rewrite E in H.
Qed.

Lemma Trimmed_truthy (s : jsstring) : Trimmed s -> truthy_string (trim s) = true.
Proof. intros [Hne Ht]. rewrite Ht. now destruct s. Qed.

(** ** [normalizeString] *)

Lemma normalizeString_cases (v : value) (fallback : jsstring) :
  (exists s, v = VString s /\ trim s <> [] /\ normalizeString v fallback = trim s)
  \/ ((forall s, v = VString s -> trim s = []) /\ normalizeString v fallback = fallback).
Proof.
  destruct v as [| |b|n|s|l|o]; simpl;
    try (right; split; [intros ? [=]|reflexivity]).
  destruct (trim s) as [|c t] eqn:E; simpl.
  - right. split; [|reflexivity]. now intros ? [= <-].
  - left. exists s. now rewrite E.
Qed.

Lemma normalizeString_Trimmed (v : value) (fallback : jsstring) :
  Trimmed fallback -> Trimmed (normalizeString v fallback).
Proof.
  intros Hf. destruct v; simpl; try exact Hf.
  destruct (truthy_string (trim s)) eqn:E; [now apply trim_Trimmed|exact Hf].
Qed.

Lemma normalizeString_fixed (s fallback : jsstring) :
  Trimmed s -> normalizeString (VString s) fallback = s.
Proof.
  intros H. simpl. rewrite (Trimmed_truthy s H). apply H.
Qed.

Lemma Trimmed_Not_provided : Trimmed (js "Not provided").
Proof. split; [discriminate|reflexivity]. Qed.

Lemma Trimmed_placeholder_summary : Trimmed (summary placeholderReport).
Proof. split; [discriminate|now vm_compute]. Qed.

Lemma Trimmed_placeholder_next : Trimmed (recommendedNextStep placeholderReport).
Proof. split; [discriminate|now vm_compute]. Qed.

(** ** [clampScore] *)

Lemma Math_max_int (a b : Z) : Math_max (int a) (int b) = int (Z.max a b).
Proof.
  unfold int; simpl. destruct (Qle_bool (inject_Z a) (inject_Z b)) eqn:E.
  - apply Qle_bool_iff in E. rewrite <- Zle_Qle in E.
    now rewrite Z.max_r.
  - assert (H : ~ (a <= b)%Z).
    { intros H. rewrite Zle_Qle in H. apply Qle_bool_iff in H. congruence. }
    rewrite Z.max_l; [reflexivity|lia].
Qed.

Lemma Math_min_int (a b : Z) : Math_min (int a) (int b) = int (Z.min a b).
Proof.
  unfold int; simpl. destruct (Qle_bool (inject_Z a) (inject_Z b)) eqn:E.
  - apply Qle_bool_iff in E. rewrite <- Zle_Qle in E.
    now rewrite Z.min_l.
  - assert (H : ~ (a <= b)%Z).
    { intros H. rewrite Zle_Qle in H. apply Qle_bool_iff in H. congruence. }
    rewrite Z.min_r; [reflexivity|lia].
Qed.

Lemma clampScore_finite (q : Q) :
  clampScore (VNumber (Finite q))
  = int (Z.min 100 (Z.max 0 (Qfloor (q + (1 # 2))))).
Proof.
  change (clampScore (VNumber (Finite q)))
    with (Math_min (int 100) (Math_max (int 0) (int (Qfloor (q + (1 # 2)))))).
  now rewrite Math_max_int, Math_min_int.
Qed.

(** [Qfloor (q + 1/2)] is the integer nearest to [q], the upper one at a tie. *)
Lemma round_half_up_nearest (q : Q) :
  (inject_Z (Qfloor (q + (1 # 2))) - (1 # 2) <= q
   /\ q < inject_Z (Qfloor (q + (1 # 2))) + (1 # 2))%Q.
Proof.
  pose proof (Qfloor_le (q + (1 # 2))) as Hlo.
  pose proof (Qlt_floor (q + (1 # 2))) as Hhi.
  rewrite inject_Z_plus in Hhi.
  split.
  - apply (Qplus_le_l _ _ (1 # 2)). ring_simplify.
    ring_simplify in Hlo. exact Hlo.
  - apply (Qplus_lt_l _ _ (1 # 2)).
    eapply Qlt_le_trans; [exact Hhi|].
    apply Qle_lteq. right. change (inject_Z 1) with 1%Q. ring.
Qed.

Lemma Qfloor_int_half (k : Z) : Qfloor (inject_Z k + (1 # 2)) = k.
Proof.
  unfold Qfloor, inject_Z, Qplus; simpl.
  rewrite Z.mul_1_r.
  replace (k * 2 + 1)%Z with (1 + k * 2)%Z by lia.
  rewrite Z.div_add by lia. reflexivity.
Qed.

Lemma clampScore_int (k : Z) :
  clampScore (VNumber (int k)) = int (Z.min 100 (Z.max 0 k)).
Proof. unfold int. now rewrite clampScore_finite, Qfloor_int_half. Qed.

Lemma clampScore_range (v : value) :
  exists k : Z, (0 <= k <= 100)%Z /\ clampScore v = int k.
Proof.
  assert (H0 : exists k : Z, (0 <= k <= 100)%Z /\ int 0 = int k)
    by (exists 0%Z; split; [lia|reflexivity]).
  destruct v as [| |b|n|s|l|o]; try exact H0.
  destruct n as [|neg|q]; try exact H0.
  rewrite clampScore_finite. eexists; split; [|reflexivity]. lia.
Qed.

(** C2. [clampScore] yields 0 on anything that is not a finite number; on a
    finite number [x] it yields the integer nearest to [x] (a tie rounding
    up), clamped to [0, 100]; its result is always an integer of [0, 100];
    [clampScore(-5) = 0], [clampScore(150) = 100], [clampScore(42.5) = 43],
    and [clampScore("78")], [clampScore(NaN)], [clampScore(Infinity)] are 0. *)
Theorem clampScore_spec :
  (forall v : value, typeof v <> TNumber -> clampScore v = int 0)
  /\ clampScore (VNumber NaN) = int 0
  /\ (forall negative : bool, clampScore (VNumber (Infinity negative)) = int 0)
  /\ (forall x : Q, exists n : Z,
        (inject_Z n - (1 # 2) <= x /\ x < inject_Z n + (1 # 2))%Q
        /\ clampScore (VNumber (Finite x)) = int (Z.min 100 (Z.max 0 n)))
  /\ (forall v : value, exists k : Z, (0 <= k <= 100)%Z /\ clampScore v = int k)
  /\ clampScore (VNumber (int (-5))) = int 0
  /\ clampScore (VNumber (int 150)) = int 100
  /\ clampScore (VNumber (Finite (85 # 2))) = int 43
  /\ clampScore (VString (js "78")) = int 0.
Proof.
  repeat apply conj; try reflexivity.
  - intros v Hv. destruct v; try reflexivity. now elim Hv.
  - intros x. exists (Qfloor (x + (1 # 2))). split.
    + apply round_half_up_nearest.
    + apply clampScore_finite.
  - apply clampScore_range.
Qed.

(** ** [translateRisk] *)

Ltac case_tag :=
  match goal with
  | |- context [decide (trim ?s = js ?t)] =>
    destruct (decide (trim s = js t))
  end; cbv beta iota delta [severity message label].

Lemma translateRisk_unknown (s : jsstring) :
  trim s <> js "APICallInUI" -> trim s <> js "LogicInUI" ->
  trim s <> js "FlatStructure" -> trim s <> js "HugeComponent" ->
  trim s <> js "CircularImport" ->
  translateRisk s = unknownRisk s.
Proof.
  intros H1 H2 H3 H4 H5. unfold translateRisk.
  rewrite !decide_False by assumption. reflexivity.
Qed.

Lemma translateRisk_trim (s : jsstring) :
  severity (translateRisk s) = severity (translateRisk (trim s))
  /\ message (translateRisk s) = message (translateRisk (trim s)).
Proof.
  unfold translateRisk. rewrite trim_idem.
  repeat (case_tag; [split; reflexivity|]).
  split; reflexivity.
Qed.

(** C3. [translateRisk] is a total function of its argument alone. It
    matches the trimmed argument exactly against the five tags
    [APICallInUI], [LogicInUI], [FlatStructure], [HugeComponent],
    [CircularImport], each with its fixed label, severity and message (for
    [APICallInUI] the label "Business logic mixed into UI" and the High Risk
    tier, whose text carries its icon); any other argument, the empty string
    too, gives the raw argument as the label, the Unknown Risk tier and the
    fixed disclaimer. *)
Theorem translateRisk_spec :
  (forall s, trim s = js "APICallInUI" ->
     translateRisk s =
     {| label := js "Business logic mixed into UI";
        severity := js "🔴 High Risk";
        message := js "Works for demos, but fragile when adding auth, workflows, or team features." |})
  /\ (forall s, trim s = js "LogicInUI" ->
     translateRisk s =
     {| label := js "Logic tangled inside components";
        severity := js "🟠 Medium Risk";
        message := js "Hard to test, hard to change — every new feature increases risk." |})
  /\ (forall s, trim s = js "FlatStructure" ->
     translateRisk s =
     {| label := js "Prototype-only folder structure";
        severity := js "🔴 Critical Risk";
        message := js "Everything lives in one folder — evolution will be painful." |})
  /\ (forall s, trim s = js "HugeComponent" ->
     translateRisk s =
     {| label := js "Giant 'God' component";
        severity := js "🟡 Medium-Low Risk";
        message := js "One file doing too many jobs — a sign of structural fragility." |})
  /\ (forall s, trim s = js "CircularImport" ->
     translateRisk s =
     {| label := js "Circular dependency risk";
        severity := js "🔴 Critical Risk";
        message := js "Features begin to break randomly when files depend on each other in loops." |})
  /\ (forall s,
        ~ In (trim s) [js "APICallInUI"; js "LogicInUI"; js "FlatStructure";
                       js "HugeComponent"; js "CircularImport"] ->
        translateRisk s =
        {| label := s;
           severity := js "⚪ Unknown Risk";
           message := js "Risk type not recognized — may indicate structural issues." |})
  /\ (forall s, severity (translateRisk s) = severity (translateRisk (trim s))
                /\ message (translateRisk s) = message (translateRisk (trim s)))
  /\ translateRisk (js "") = unknownRisk (js "")
  /\ translateRisk (js "apicallinui") = unknownRisk (js "apicallinui")
  /\ label (translateRisk (js "  APICallInUI
 ")) = js "Business logic mixed into UI"
  /\ severity (translateRisk (js "APICallInUI")) = js "🔴 High Risk"
  /\ includes (js "🔴 High Risk") (js "High Risk") = true
  /\ includes (js "⚪ Unknown Risk") (js "Unknown") = true.
Proof.
  repeat apply conj.
  1-5: intros s H; unfold translateRisk; rewrite H; vm_compute; reflexivity.
  - intros s H. apply translateRisk_unknown; intros E; apply H; rewrite E;
      cbn [In]; tauto.
  - apply translateRisk_trim.
  - vm_compute; reflexivity.
  - vm_compute; reflexivity.
  - vm_compute; reflexivity.
  - vm_compute; reflexivity.
  - vm_compute; reflexivity.
  - vm_compute; reflexivity.
Qed.

(** The tag [LogicInUI] between blanks. *)
Lemma translateRisk_spec_witness :
  trim (js "  LogicInUI ") = js "LogicInUI"
  /\ translateRisk (js "  LogicInUI ") =
     {| label := js "Logic tangled inside components";
        severity := js "🟠 Medium Risk";
        message := js "Hard to test, hard to change — every new feature increases risk." |}.
Proof.
  assert (E : trim (js "  LogicInUI ") = js "LogicInUI")
    by (vm_compute; reflexivity).
  split; [exact E|].
  exact (proj1 (proj2 translateRisk_spec) (js "  LogicInUI ") E).
Defined.

(** ** Completions: reading properties without a throw *)

Lemma bind_Normal {A B : Type} (a : A) (f : A -> completion B) :
  mbind f (Normal a) = f a.
Proof. reflexivity. Qed.

Lemma Get_prop (v : value) (k : jsstring) :
  nullish v = false -> Get v k = Normal (prop v k).
Proof. now destruct v. Qed.

Lemma Get_nullish (v : value) (k : jsstring) :
  nullish v = true -> Get v k = Throw TypeError.
Proof. now destruct v. Qed.

Lemma coalesce_Normal (a b : value) :
  coalesce a (Normal b) = Normal (or_else a b).
Proof. unfold coalesce, or_else. now destruct (nullish a). Qed.

Lemma isRecord_not_nullish (item : value) :
  isRecord item = true -> nullish item = false.
Proof. now destruct item. Qed.

Lemma mapM_Normal {A B : Type} (f : A -> completion B) (g : A -> B) (l : list A) :
  (forall x, f x = Normal (g x)) -> mapM f l = Normal (List.map g l).
Proof.
  intros Hf. induction l as [|x l IH]; [reflexivity|].
  cbn [mapM List.map]. rewrite Hf, bind_Normal, IH, bind_Normal. reflexivity.
Qed.

(** ** [asRiskArray] *)

Lemma riskOfItem_eq (item : value) :
  riskOfItem item
  = Normal (if isRecord item then Some (normalizeRisk item) else None).
Proof.
  unfold riskOfItem.
  destruct (isRecord item) eqn:E.
  - assert (G : negb (is_object_type (typeof item)) || is_null item = false)
      by now destruct item.
    rewrite G.
    pose proof (isRecord_not_nullish item E) as Hn.
    rewrite !(Get_prop item _ Hn).
    repeat (rewrite ?bind_Normal, ?coalesce_Normal; cbv beta).
    reflexivity.
  - assert (G : negb (is_object_type (typeof item)) || is_null item = true)
      by now destruct item.
    now rewrite G.
Qed.

Lemma filter_Boolean_map (items : list value) :
  filter_Boolean
    (List.map (fun item => if isRecord item then Some (normalizeRisk item) else None)
       items)
  = List.map normalizeRisk (List.filter isRecord items).
Proof.
  induction items as [|item items IH]; [reflexivity|].
  cbn [List.map List.filter filter_Boolean].
  destruct (isRecord item); cbn [List.map filter_Boolean]; now rewrite IH.
Qed.

Lemma asRiskArray_array (items : list value) :
  asRiskArray (VArray items)
  = Normal (List.map normalizeRisk (List.filter isRecord items)).
Proof.
  unfold asRiskArray. cbn [Array_isArray negb].
  rewrite (mapM_Normal _ _ items riskOfItem_eq), bind_Normal.
  now rewrite filter_Boolean_map.
Qed.

Lemma asRiskArray_other (v : value) :
  Array_isArray v = false -> asRiskArray v = Normal [].
Proof. intros H. unfold asRiskArray. now rewrite H. Qed.

Lemma WellFormedRisk_normalizeRisk (item : value) :
  WellFormedRisk (normalizeRisk item).
Proof.
  split; [|split]; apply normalizeString_Trimmed, Trimmed_Not_provided.
Qed.

(** C4. [asRiskArray] maps a value that is not an array to the empty list.
    On an array it drops each element that is not a non-null object (no
    placeholder takes its place), turns each remaining element, in input
    order, into a risk whose [type], [filePath] and [explanation] are the
    trimmed text of the property read or "Not provided", and so all three
    fields of every risk are present and not empty. On
    [[1, "x", null, {type: "A"}]] the result is one risk. *)
Theorem asRiskArray_spec :
  (forall v, Array_isArray v = false -> asRiskArray v = Normal [])
  /\ (forall items,
        asRiskArray (VArray items)
        = Normal (List.map normalizeRisk (List.filter isRecord items)))
  /\ (forall item, isRecord item = true <-> typeof item = TObject /\ item <> VNull)
  /\ (forall v fallback,
        (exists s, v = VString s /\ trim s <> []
                   /\ normalizeString v fallback = trim s)
        \/ ((forall s, v = VString s -> trim s = [])
            /\ normalizeString v fallback = fallback))
  /\ (forall items rs,
        asRiskArray (VArray items) = Normal rs ->
        Forall (fun r => type r <> [] /\ filePath r <> [] /\ explanation r <> []) rs)
  /\ asRiskArray
       (VArray [VNumber (int 1); VString (js "x"); VNull;
                object [(js "type", VString (js "A"))]])
     = Normal [{| type := js "A";
                  filePath := js "Not provided";
                  explanation := js "Not provided" |}].
Proof.
  repeat apply conj.
  - apply asRiskArray_other.
  - apply asRiskArray_array.
  - intros item. destruct item; cbn; split; try tauto; try discriminate;
      try (intros [H _]; discriminate H); try (intros [_ H]; now elim H);
      try (intros _; split; [reflexivity|discriminate]).
  - apply normalizeString_cases.
  - intros items rs H. rewrite asRiskArray_array in H.
    injection H as <-. apply List.Forall_forall. intros r Hr.
    apply in_map_iff in Hr as (item & <- & _).
    destruct (WellFormedRisk_normalizeRisk item) as ((H1 & _) & (H2 & _) & (H3 & _)).
    auto.
  - vm_compute. reflexivity.
Qed.

(** The invariant of the risks at an array of [null] and one object. *)
Lemma asRiskArray_spec_witness :
  asRiskArray (VArray [VNull; object [(js "file", VString (js " a.ts "))]])
  = Normal [{| type := js "Not provided";
               filePath := js "a.ts";
               explanation := js "Not provided" |}]
  /\ Forall (fun r => type r <> [] /\ filePath r <> [] /\ explanation r <> [])
       [{| type := js "Not provided";
           filePath := js "a.ts";
           explanation := js "Not provided" |}].
Proof.
  assert (E : asRiskArray (VArray [VNull; object [(js "file", VString (js " a.ts "))]])
              = Normal [{| type := js "Not provided";
                           filePath := js "a.ts";
                           explanation := js "Not provided" |}])
    by (vm_compute; reflexivity).
  split; [exact E|].
  exact (proj1 (proj2 (proj2 (proj2 (proj2 asRiskArray_spec)))) _ _ E).
Defined.

(** C10. An element of the array that is itself an array is kept by
    [asRiskArray]: it passes the element test and becomes the risk whose
    three fields are "Not provided". Only [null] and the values that are not
    objects (booleans, numbers, strings) are filtered out. *)
Theorem asRiskArray_keeps_arrays :
  (forall before l after,
      asRiskArray (VArray (before ++ VArray l :: after))
      = Normal (List.map normalizeRisk (List.filter isRecord before)
                ++ defaultRisk
                :: List.map normalizeRisk (List.filter isRecord after)))
  /\ (forall item,
        asRiskArray (VArray [item]) = Normal []
        <-> item = VNull \/ typeof item <> TObject)
  /\ asRiskArray (VArray [VArray []]) = Normal [defaultRisk]
  /\ asRiskArray (VArray [VArray [VNumber (int 1); VNumber (int 2)]])
     = Normal [defaultRisk].
Proof.
  repeat apply conj.
  - intros before l after. rewrite asRiskArray_array.
    rewrite List.filter_app, List.map_app. reflexivity.
  - intros item. rewrite asRiskArray_array.
    destruct item; cbn [List.filter isRecord typeof is_object_type is_null
                          negb andb List.map];
      split; intros H;
      try reflexivity; try discriminate H;
      try (left; reflexivity); try (right; discriminate);
      destruct H as [H|H]; try discriminate H; now elim H.
  - rewrite asRiskArray_array. reflexivity.
  - rewrite asRiskArray_array. reflexivity.
Qed.

(** ** [mapToReport] *)

Lemma asRiskArray_eq (v : value) : asRiskArray v = Normal (risksOf v).
Proof.
  destruct v; try (apply asRiskArray_other; reflexivity).
  apply asRiskArray_array.
Qed.

Lemma mapToReport_eq (raw : value) :
  nullish raw = false -> mapToReport raw = Normal (normalized raw).
Proof.
  intros Hn. unfold mapToReport.
  rewrite !(Get_prop raw _ Hn).
  repeat (rewrite ?bind_Normal, ?coalesce_Normal, ?asRiskArray_eq; cbv beta).
  reflexivity.
Qed.

Lemma mapToReport_throws (raw : value) :
  nullish raw = true -> mapToReport raw = Throw TypeError.
Proof.
  intros Hn. unfold mapToReport.
  rewrite (Get_nullish raw (js "structuralViabilityScore") Hn). reflexivity.
Qed.

Lemma WellFormed_normalized (raw : value) : WellFormed (normalized raw).
Proof.
  unfold WellFormed, normalized;
    cbn [structuralViabilityScore stage summary recommendedNextStep risks].
  split; [apply clampScore_range|].
  split; [apply normalizeString_Trimmed, Trimmed_Not_provided|].
  split; [apply normalizeString_Trimmed, Trimmed_placeholder_summary|].
  split; [apply normalizeString_Trimmed, Trimmed_placeholder_next|].
  unfold risksOf. destruct (prop raw (js "risks")); try constructor.
  apply List.Forall_forall. intros r Hr.
  apply in_map_iff in Hr as (item & <- & _).
  apply WellFormedRisk_normalizeRisk.
Qed.

(** C1, as amended. [mapToReport] returns a well-formed Report, defaults in
    place of whatever is missing or malformed, on every value that is not
    [null] (nor [undefined], which [JSON.parse] never returns): on an object,
    and also on a boolean, a number, a string or an array. *)
Theorem mapToReport_total_on_non_null (raw : value) :
  nullish raw = false ->
  exists r : ReportData, mapToReport raw = Normal r /\ WellFormed r.
Proof.
  intros Hn. exists (normalized raw). split.
  - now apply mapToReport_eq.
  - apply WellFormed_normalized.
Qed.

Lemma mapToReport_total_on_non_null_witness :
  nullish (VArray [VBool true]) = false
  /\ exists r : ReportData,
       mapToReport (VArray [VBool true]) = Normal r /\ WellFormed r.
Proof.
  split; [reflexivity|].
  apply (mapToReport_total_on_non_null (VArray [VBool true])). reflexivity.
Defined.

(** C1 as stated fails on [null], a value [JSON.parse] produces from the
    text [null]: reading its first property throws a [TypeError]. *)
Lemma mapToReport_null_throws :
  mapToReport VNull = Throw TypeError.
Proof. reflexivity. Qed.

(** ** Field aliases *)

Lemma or_else_present (a b : value) : nullish a = false -> or_else a b = a.
Proof. intros H. unfold or_else. now rewrite H. Qed.

Lemma or_else_absent (a b : value) : nullish a = true -> or_else a b = b.
Proof. intros H. unfold or_else. now rewrite H. Qed.

Lemma prop_Some (props : gmap jsstring value) (k : jsstring) (v : value) :
  props !! k = Some v -> prop (VObject props) k = v.
Proof. intros H. unfold prop. now rewrite H. Qed.

Lemma prop_None (props : gmap jsstring value) (k : jsstring) :
  props !! k = None -> prop (VObject props) k = VUndefined.
Proof. intros H. unfold prop. now rewrite H. Qed.

Lemma asRiskArray_singleton (props : gmap jsstring value) :
  asRiskArray (VArray [VObject props]) = Normal [normalizeRisk (VObject props)].
Proof. now rewrite asRiskArray_array. Qed.

(** C5, as amended. Where a field has several names, the first listed name
    wins whenever it holds a value other than [null], whatever the alias
    holds; the alias is read when the first name is absent or holds [null]:
    [structuralViabilityScore] before [viabilityScore],
    [recommendedNextStep] before [nextStep], and in a risk [file] before
    [filePath], and [why] before [whyItMatters] before [explanation]. A risk
    [{file: "a.ts", filePath: "b.ts"}] gets the file path "a.ts". *)
Theorem alias_precedence :
  (forall (props : gmap jsstring value) (sv : value),
      props !! js "structuralViabilityScore" = Some sv -> nullish sv = false ->
      exists r, mapToReport (VObject props) = Normal r
                /\ structuralViabilityScore r = clampScore sv)
  /\ (forall (props : gmap jsstring value),
        props !! js "structuralViabilityScore" = None ->
        exists r, mapToReport (VObject props) = Normal r
                  /\ structuralViabilityScore r
                     = clampScore (prop (VObject props) (js "viabilityScore")))
  /\ (forall (props : gmap jsstring value) (n : value),
        props !! js "recommendedNextStep" = Some n -> nullish n = false ->
        exists r, mapToReport (VObject props) = Normal r
                  /\ recommendedNextStep r
                     = normalizeString n (recommendedNextStep placeholderReport))
  /\ (forall (props : gmap jsstring value),
        props !! js "recommendedNextStep" = None ->
        exists r, mapToReport (VObject props) = Normal r
                  /\ recommendedNextStep r
                     = normalizeString (prop (VObject props) (js "nextStep"))
                         (recommendedNextStep placeholderReport))
  /\ (forall (props : gmap jsstring value) (f : value),
        props !! js "file" = Some f -> nullish f = false ->
        exists r, asRiskArray (VArray [VObject props]) = Normal [r]
                  /\ filePath r = normalizeString f (js "Not provided"))
  /\ (forall (props : gmap jsstring value),
        props !! js "file" = None ->
        exists r, asRiskArray (VArray [VObject props]) = Normal [r]
                  /\ filePath r
                     = normalizeString (prop (VObject props) (js "filePath"))
                         (js "Not provided"))
  /\ (forall (props : gmap jsstring value) (w : value),
        props !! js "why" = Some w -> nullish w = false ->
        exists r, asRiskArray (VArray [VObject props]) = Normal [r]
                  /\ explanation r = normalizeString w (js "Not provided"))
  /\ (forall (props : gmap jsstring value) (w : value),
        props !! js "why" = None ->
        props !! js "whyItMatters" = Some w -> nullish w = false ->
        exists r, asRiskArray (VArray [VObject props]) = Normal [r]
                  /\ explanation r = normalizeString w (js "Not provided"))
  /\ (forall (props : gmap jsstring value),
        props !! js "why" = None -> props !! js "whyItMatters" = None ->
        exists r, asRiskArray (VArray [VObject props]) = Normal [r]
                  /\ explanation r
                     = normalizeString (prop (VObject props) (js "explanation"))
                         (js "Not provided"))
  /\ asRiskArray
       (VArray [object [(js "file", VString (js "a.ts"));
                        (js "filePath", VString (js "b.ts"))]])
     = Normal [{| type := js "Not provided";
                  filePath := js "a.ts";
                  explanation := js "Not provided" |}]
  /\ asRiskArray
       (VArray [object [(js "explanation", VString (js "e"));
                        (js "whyItMatters", VString (js "m"));
                        (js "why", VString (js "w"))]])
     = Normal [{| type := js "Not provided";
                  filePath := js "Not provided";
                  explanation := js "w" |}]
  /\ mapToReport
       (object [(js "structuralViabilityScore", VNumber (int 10));
                (js "viabilityScore", VNumber (int 90));
                (js "nextStep", VString (js "later"));
                (js "recommendedNextStep", VString (js "now"))])
     = Normal {| structuralViabilityScore := int 10;
                 stage := js "Not provided";
                 summary := summary placeholderReport;
                 recommendedNextStep := js "now";
                 risks := [] |}
  /\ mapToReport (object [(js "viabilityScore", VNumber (int 90))])
     = Normal {| structuralViabilityScore := int 90;
                 stage := js "Not provided";
                 summary := summary placeholderReport;
                 recommendedNextStep := recommendedNextStep placeholderReport;
                 risks := [] |}
  /\ (forall props : gmap jsstring value,
        nullish (prop (VObject props) (js "structuralViabilityScore")) = true ->
        exists r, mapToReport (VObject props) = Normal r
                  /\ structuralViabilityScore r
                     = clampScore (prop (VObject props) (js "viabilityScore")))
  /\ (forall props : gmap jsstring value,
        nullish (prop (VObject props) (js "recommendedNextStep")) = true ->
        exists r, mapToReport (VObject props) = Normal r
                  /\ recommendedNextStep r
                     = normalizeString (prop (VObject props) (js "nextStep"))
                         (recommendedNextStep placeholderReport))
  /\ (forall props : gmap jsstring value,
        nullish (prop (VObject props) (js "file")) = true ->
        exists r, asRiskArray (VArray [VObject props]) = Normal [r]
                  /\ filePath r
                     = normalizeString (prop (VObject props) (js "filePath"))
                         (js "Not provided"))
  /\ (forall (props : gmap jsstring value) (w : value),
        nullish (prop (VObject props) (js "why")) = true ->
        props !! js "whyItMatters" = Some w -> nullish w = false ->
        exists r, asRiskArray (VArray [VObject props]) = Normal [r]
                  /\ explanation r = normalizeString w (js "Not provided"))
  /\ (forall props : gmap jsstring value,
        nullish (prop (VObject props) (js "why")) = true ->
        nullish (prop (VObject props) (js "whyItMatters")) = true ->
        exists r, asRiskArray (VArray [VObject props]) = Normal [r]
                  /\ explanation r
                     = normalizeString (prop (VObject props) (js "explanation"))
                         (js "Not provided")).
Proof.
  repeat apply conj.
  - intros props sv H Hn. exists (normalized (VObject props)).
    split; [now apply mapToReport_eq|].
    cbn [normalized structuralViabilityScore].
    now rewrite (prop_Some _ _ _ H), (or_else_present _ _ Hn).
  - intros props H. exists (normalized (VObject props)).
    split; [now apply mapToReport_eq|].
    cbn [normalized structuralViabilityScore].
    now rewrite (prop_None _ _ H), or_else_absent.
  - intros props n H Hn. exists (normalized (VObject props)).
    split; [now apply mapToReport_eq|].
    cbn [normalized recommendedNextStep].
    now rewrite (prop_Some _ _ _ H), (or_else_present _ _ Hn).
  - intros props H. exists (normalized (VObject props)).
    split; [now apply mapToReport_eq|].
    cbn [normalized recommendedNextStep].
    now rewrite (prop_None _ _ H), or_else_absent.
  - intros props f H Hn. exists (normalizeRisk (VObject props)).
    split; [apply asRiskArray_singleton|].
    cbn [normalizeRisk filePath].
    now rewrite (prop_Some _ _ _ H), (or_else_present _ _ Hn).
  - intros props H. exists (normalizeRisk (VObject props)).
    split; [apply asRiskArray_singleton|].
    cbn [normalizeRisk filePath].
    now rewrite (prop_None _ _ H), or_else_absent.
  - intros props w H Hn. exists (normalizeRisk (VObject props)).
    split; [apply asRiskArray_singleton|].
    cbn [normalizeRisk explanation].
    now rewrite (prop_Some _ _ _ H), !(or_else_present _ _ Hn).
  - intros props w H0 H Hn. exists (normalizeRisk (VObject props)).
    split; [apply asRiskArray_singleton|].
    cbn [normalizeRisk explanation].
    rewrite (prop_None _ _ H0), (prop_Some _ _ _ H).
    now rewrite (or_else_absent VUndefined), (or_else_present _ _ Hn).
  - intros props H0 H. exists (normalizeRisk (VObject props)).
    split; [apply asRiskArray_singleton|].
    cbn [normalizeRisk explanation].
    rewrite (prop_None _ _ H0), (prop_None _ _ H).
    now rewrite !(or_else_absent VUndefined).
  - vm_compute. reflexivity.
  - vm_compute. reflexivity.
  - vm_compute. reflexivity.
  - vm_compute. reflexivity.
  - intros props H. exists (normalized (VObject props)).
    split; [now apply mapToReport_eq|].
    cbn [normalized structuralViabilityScore].
    now rewrite (or_else_absent _ _ H).
  - intros props H. exists (normalized (VObject props)).
    split; [now apply mapToReport_eq|].
    cbn [normalized recommendedNextStep].
    now rewrite (or_else_absent _ _ H).
  - intros props H. exists (normalizeRisk (VObject props)).
    split; [apply asRiskArray_singleton|].
    cbn [normalizeRisk filePath].
    now rewrite (or_else_absent _ _ H).
  - intros props w H0 H Hn. exists (normalizeRisk (VObject props)).
    split; [apply asRiskArray_singleton|].
    cbn [normalizeRisk explanation].
    rewrite (or_else_absent _ _ H0), (prop_Some _ _ _ H).
    now rewrite (or_else_present _ _ Hn).
  - intros props H0 H. exists (normalizeRisk (VObject props)).
    split; [apply asRiskArray_singleton|].
    cbn [normalizeRisk explanation].
    now rewrite (or_else_absent _ _ H0), (or_else_absent _ _ H).
Qed.

(** C5 as stated fails when the first listed name is present and holds
    [null]: the risk [{file: null, filePath: "b.ts"}] gets the file path
    "b.ts", and [{structuralViabilityScore: null, viabilityScore: 90}] the
    score 90. Both names are present and the alias wins. *)
Lemma alias_wins_over_null :
  asRiskArray
    (VArray [object [(js "file", VNull);
                     (js "filePath", VString (js "b.ts"))]])
  = Normal [{| type := js "Not provided";
               filePath := js "b.ts";
               explanation := js "Not provided" |}]
  /\ mapToReport
       (object [(js "structuralViabilityScore", VNull);
                (js "viabilityScore", VNumber (int 90))])
     = Normal {| structuralViabilityScore := int 90;
                 stage := js "Not provided";
                 summary := summary placeholderReport;
                 recommendedNextStep := recommendedNextStep placeholderReport;
                 risks := [] |}.
Proof. split; vm_compute; reflexivity. Qed.


(** The first name wins even when its value is not a number. *)
Lemma alias_precedence_witness :
  exists r,
    mapToReport
      (object [(js "structuralViabilityScore", VString (js "abc"));
               (js "viabilityScore", VNumber (int 90))])
    = Normal r
    /\ structuralViabilityScore r = clampScore (VString (js "abc")).
Proof.
  apply (proj1 alias_precedence
           (list_to_map [(js "structuralViabilityScore", VString (js "abc"));
                         (js "viabilityScore", VNumber (int 90))])
           (VString (js "abc"))).
  - vm_compute. reflexivity.
  - reflexivity.
Defined.

(** ** Round trip through the JSON form *)

Lemma prop_riskToJSON (r : Risk) :
  prop (riskToJSON r) (js "type") = VString (type r)
  /\ prop (riskToJSON r) (js "file") = VUndefined
  /\ prop (riskToJSON r) (js "filePath") = VString (filePath r)
  /\ prop (riskToJSON r) (js "why") = VUndefined
  /\ prop (riskToJSON r) (js "whyItMatters") = VUndefined
  /\ prop (riskToJSON r) (js "explanation") = VString (explanation r).
Proof. destruct r. repeat apply conj; vm_compute; reflexivity. Qed.

Lemma prop_reportToJSON (r : ReportData) :
  prop (reportToJSON r) (js "structuralViabilityScore")
  = VNumber (structuralViabilityScore r)
  /\ prop (reportToJSON r) (js "stage") = VString (stage r)
  /\ prop (reportToJSON r) (js "summary") = VString (summary r)
  /\ prop (reportToJSON r) (js "recommendedNextStep")
     = VString (recommendedNextStep r)
  /\ prop (reportToJSON r) (js "risks")
     = VArray (List.map riskToJSON (risks r)).
Proof. destruct r. repeat apply conj; vm_compute; reflexivity. Qed.

Lemma normalizeRisk_riskToJSON (r : Risk) :
  WellFormedRisk r -> normalizeRisk (riskToJSON r) = r.
Proof.
  intros (Ht & Hf & He).
  destruct (prop_riskToJSON r) as (P1 & P2 & P3 & P4 & P5 & P6).
  unfold normalizeRisk. rewrite P1, P2, P3, P4, P5, P6.
  rewrite !(or_else_absent VUndefined) by reflexivity.
  rewrite !normalizeString_fixed by assumption.
  now destruct r.
Qed.

Lemma risksOf_risksToJSON (rs : list Risk) :
  Forall WellFormedRisk rs ->
  risksOf (VArray (List.map riskToJSON rs)) = rs.
Proof.
  unfold risksOf. induction 1 as [|r rs Hr _ IH]; [reflexivity|].
  cbn [List.map List.filter].
  change (isRecord (riskToJSON r)) with true. cbn [List.map].
  now rewrite IH, normalizeRisk_riskToJSON.
Qed.

Lemma normalized_reportToJSON (r : ReportData) :
  WellFormed r -> normalized (reportToJSON r) = r.
Proof.
  intros ((k & Hk & Hs) & Hst & Hsu & Hn & Hr).
  destruct (prop_reportToJSON r) as (P1 & P2 & P3 & P4 & P5).
  unfold normalized. rewrite P1, P2, P3, P4, P5.
  rewrite !or_else_present by reflexivity.
  rewrite !normalizeString_fixed by assumption.
  rewrite risksOf_risksToJSON by assumption.
  rewrite Hs, clampScore_int.
  replace (Z.min 100 (Z.max 0 k)) with k by lia.
  rewrite <- Hs. now destruct r.
Qed.

(** C8. [mapToReport] is a function of its argument alone: one input has one
    Report, whose risks are those of the input array in input order. Applied
    to the JSON form of a Report it returned, it returns that Report again. *)
Theorem mapToReport_idempotent (raw : value) (r : ReportData) :
  mapToReport raw = Normal r ->
  mapToReport (reportToJSON r) = Normal r
  /\ (forall r', mapToReport raw = Normal r' -> r' = r)
  /\ risks r = risksOf (prop raw (js "risks")).
Proof.
  intros H.
  destruct (nullish raw) eqn:Hn.
  - rewrite (mapToReport_throws raw Hn) in H. discriminate H.
  - rewrite (mapToReport_eq raw Hn) in H. injection H as <-.
    repeat apply conj.
    + rewrite mapToReport_eq by reflexivity.
      now rewrite normalized_reportToJSON by apply WellFormed_normalized.
    + intros r' H'. rewrite (mapToReport_eq raw Hn) in H'. now injection H'.
    + reflexivity.
Qed.

(** ** Upload handlers *)

Lemma onload_try_Text_Normal (v : value) :
  onload_try (Text (Normal v)) = mapToReport v.
Proof. reflexivity. Qed.

Lemma upload_ReadDone (file : File) (l : loaded) (st : state) :
  upload file (ReadDone l) st
  = match onload_try l with
    | Normal r => {| report := r; isPlaceholder := false;
                     error := None; fileName := Some (name file) |}
    | Throw _ => parseFailure
    end.
Proof.
  unfold upload, reader_onload. now destruct (onload_try l).
Qed.

Lemma upload_ReadFailed (file : File) (st : state) :
  upload file ReadFailed st
  = {| report := report st; isPlaceholder := isPlaceholder st;
       error := Some readFailureMessage; fileName := fileName st |}.
Proof. reflexivity. Qed.

(** C7, as amended. A text that is not JSON ([JSON.parse] throws), and the
    JSON text [null], end in the "confirm it is valid JSON" message with the
    placeholder Report displayed. Every other JSON value is accepted without
    any error: an object whatever its fields hold, and also an array, a
    string, a number or a boolean; the normalizer puts defaults in place of
    whatever is missing or malformed, and the result is displayed. *)
Theorem upload_parse_policy (file : File) (st : state) :
  (forall e : exn, upload file (ReadDone (Text (Throw e))) st = parseFailure)
  /\ upload file (ReadDone (Text (Normal VNull))) st = parseFailure
  /\ upload file (ReadDone NotAString) st = parseFailure
  /\ error parseFailure
     = Some (js "We could not parse that file. Please confirm it is valid JSON.")
  /\ report parseFailure = placeholderReport
  /\ (forall v : value,
        nullish v = false ->
        upload file (ReadDone (Text (Normal v))) st
        = {| report := normalized v; isPlaceholder := false;
             error := None; fileName := Some (name file) |}
        /\ WellFormed (normalized v))
  /\ (forall props : gmap jsstring value,
        error (upload file (ReadDone (Text (Normal (VObject props)))) st) = None
        /\ WellFormed
             (report (upload file (ReadDone (Text (Normal (VObject props)))) st))).
Proof.
  split; [|split; [|split; [|split; [|split; [|split]]]]].
  - intros e. now rewrite upload_ReadDone.
  - now rewrite upload_ReadDone.
  - now rewrite upload_ReadDone.
  - reflexivity.
  - reflexivity.
  - intros v Hn. split; [|apply WellFormed_normalized].
    rewrite upload_ReadDone, onload_try_Text_Normal.
    now rewrite (mapToReport_eq v Hn).
  - intros props.
    rewrite upload_ReadDone, onload_try_Text_Normal.
    rewrite mapToReport_eq by reflexivity.
    split; [reflexivity|apply WellFormed_normalized].
Qed.

(** A JSON string is accepted as an upload. *)
Lemma upload_parse_policy_witness :
  nullish (VString (js "hello")) = false
  /\ upload {| name := js "report.json" |}
       (ReadDone (Text (Normal (VString (js "hello"))))) initial
     = {| report := normalized (VString (js "hello")); isPlaceholder := false;
          error := None; fileName := Some (js "report.json") |}.
Proof.
  split; [reflexivity|].
  refine (proj1 (proj1 (proj2 (proj2 (proj2 (proj2 (proj2
            (upload_parse_policy {| name := js "report.json" |} initial))))))
            (VString (js "hello")) _)).
  reflexivity.
Defined.

(** C7 as stated fails on the file content [42], valid JSON that is not an
    object: no error is set and the all-defaults Report is displayed as an
    uploaded one. *)
Lemma upload_number_is_accepted :
  upload {| name := js "report.json" |}
    (ReadDone (Text (Normal (VNumber (int 42))))) initial
  = {| report := {| structuralViabilityScore := int 0;
                    stage := js "Not provided";
                    summary := summary placeholderReport;
                    recommendedNextStep := recommendedNextStep placeholderReport;
                    risks := [] |};
       isPlaceholder := false;
       error := None;
       fileName := Some (js "report.json") |}.
Proof. vm_compute. reflexivity. Qed.

(** C6. A parse failure reverts the display to the placeholder Report and
    sets a message. A read failure sets its message and leaves the Report of
    the previous upload on display: after the upload of
    [{"structuralViabilityScore": 80, "stage": "Prototype"}], a failed read
    still shows the score 80 and the stage "Prototype". *)
Theorem read_failure_keeps_report :
  (forall (file : File) (l : loaded) (st : state) (e : exn),
      onload_try l = Throw e ->
      report (upload file (ReadDone l) st) = placeholderReport
      /\ error (upload file (ReadDone l) st) = Some parseFailureMessage)
  /\ (forall (file : File) (st : state),
        report (upload file ReadFailed st) = report st
        /\ isPlaceholder (upload file ReadFailed st) = isPlaceholder st
        /\ error (upload file ReadFailed st) = Some readFailureMessage)
  /\ upload {| name := js "b.json" |} ReadFailed
       (upload {| name := js "a.json" |}
          (ReadDone (Text (Normal
             (object [(js "structuralViabilityScore", VNumber (int 80));
                      (js "stage", VString (js "Prototype"))]))))
          initial)
     = {| report := {| structuralViabilityScore := int 80;
                       stage := js "Prototype";
                       summary := summary placeholderReport;
                       recommendedNextStep := recommendedNextStep placeholderReport;
                       risks := [] |};
          isPlaceholder := false;
          error := Some (js "Something went wrong while reading that file. Please try again.");
          fileName := Some (js "a.json") |}
  /\ structuralViabilityScore placeholderReport = int 0
  /\ stage placeholderReport = js "Awaiting Analysis".
Proof.
  split; [|split; [|split; [|split]]].
  - intros file l st e H. rewrite upload_ReadDone, H. split; reflexivity.
  - intros file st. rewrite upload_ReadFailed. repeat split.
  - vm_compute. reflexivity.
  - reflexivity.
  - reflexivity.
Qed.

(** The second normalization of a report with a clamped score, a trimmed
    stage and one kept risk. *)
Lemma mapToReport_idempotent_witness :
  mapToReport
    (object [(js "viabilityScore", VNumber (Finite (261 # 2)));
             (js "stage", VString (js "  Graduation "));
             (js "risks",
              VArray [VNull;
                      object [(js "type", VString (js "APICallInUI"));
                              (js "file", VString (js "x.ts"));
                              (js "why", VString (js "reason"))]])])
  = Normal {| structuralViabilityScore := int 100;
              stage := js "Graduation";
              summary := summary placeholderReport;
              recommendedNextStep := recommendedNextStep placeholderReport;
              risks := [{| type := js "APICallInUI";
                           filePath := js "x.ts";
                           explanation := js "reason" |}] |}
  /\ mapToReport
       (reportToJSON
          {| structuralViabilityScore := int 100;
             stage := js "Graduation";
             summary := summary placeholderReport;
             recommendedNextStep := recommendedNextStep placeholderReport;
             risks := [{| type := js "APICallInUI";
                          filePath := js "x.ts";
                          explanation := js "reason" |}] |})
     = Normal {| structuralViabilityScore := int 100;
                 stage := js "Graduation";
                 summary := summary placeholderReport;
                 recommendedNextStep := recommendedNextStep placeholderReport;
                 risks := [{| type := js "APICallInUI";
                              filePath := js "x.ts";
                              explanation := js "reason" |}] |}.
Proof.
  split; [vm_compute; reflexivity|].
  refine (proj1 (mapToReport_idempotent
    (object [(js "viabilityScore", VNumber (Finite (261 # 2)));
             (js "stage", VString (js "  Graduation "));
             (js "risks",
              VArray [VNull;
                      object [(js "type", VString (js "APICallInUI"));
                              (js "file", VString (js "x.ts"));
                              (js "why", VString (js "reason"))]])]) _ _)).
  vm_compute. reflexivity.
Defined.

(** ** [ArcSightExecutiveSummary]: top fragility signals *)

Module ArcSightFacts.
Import ArcSight.

Section Facts.

Variable toLowerCase : jsstring -> jsstring.

Lemma signal_classify (t : jsstring) :
  (if includes (toLowerCase t) (js "database")
      || includes (toLowerCase t) (js "shared")
   then js "Shared Database Risk"
   else if includes (toLowerCase t) (js "auth")
           || includes (toLowerCase t) (js "bottleneck")
   then js "Structural Bottleneck"
   else if includes (toLowerCase t) (js "stripe")
           || includes (toLowerCase t) (js "integration")
   then js "External API Blast Radius"
   else if includes (toLowerCase t) (js "cross-domain")
           || includes (toLowerCase t) (js "coupling")
   then js "Cross-Domain Coupling"
   else t)
  = classify toLowerCase signalTable t.
Proof.
  unfold classify, signalTable, matches.
  cbn [List.find existsb snd fst].
  rewrite !orb_false_r.
  repeat match goal with
         | |- context [if ?a || ?b then _ else _] =>
           destruct (a || b); [reflexivity|]
         end.
  reflexivity.
Qed.

Lemma topFragilities_classify (insights : list Insight) :
  topFragilities toLowerCase insights
  = List.map
      (fun i => {| signal := classify toLowerCase signalTable (title i);
                   fragility_summary := summary i |})
      (selected insights).
Proof.
  unfold topFragilities, selected. apply List.map_ext.
  intros i. now rewrite <- signal_classify.
Qed.

Lemma firstn_incl {A : Type} (n : nat) (l : list A) (x : A) :
  In x (firstn n l) -> In x l.
Proof.
  intros H. rewrite <- (firstn_skipn n l). apply in_or_app. now left.
Qed.

Lemma selected_In (insights : list Insight) (i : Insight) :
  In i (selected insights) ->
  In i insights /\ (severity i = high \/ severity i = medium).
Proof.
  unfold selected. intros H.
  apply firstn_incl in H. apply List.filter_In in H as [Hin Hs].
  split; [exact Hin|]. destruct (severity i); auto; discriminate Hs.
Qed.

Lemma selected_length (insights : list Insight) :
  (length (selected insights) <= 3)%nat.
Proof. unfold selected. apply List.firstn_le_length. Qed.

Lemma matches_flag (t : jsstring) (k1 k2 : jsstring) (flag : bool) :
  (includes (toLowerCase t) k1 = true -> flag = true) ->
  (includes (toLowerCase t) k2 = true -> flag = true) ->
  matches toLowerCase t [k1; k2] = true -> flag = true.
Proof.
  intros H1 H2 H. unfold matches in H. cbn [existsb] in H.
  rewrite orb_false_r in H. apply orb_true_iff in H as [H|H]; auto.
Qed.

Lemma existsb_In {A : Type} (f : A -> bool) (l : list A) (x : A) :
  In x l -> f x = true -> existsb f l = true.
Proof. intros Hin Hf. apply existsb_exists. now exists x. Qed.

(** C9, as amended. [topFragilities] keeps the insights of high or medium
    severity, in their original order, takes the first three, and classifies
    each by a case-insensitive keyword search of its title, the first
    matching category winning in the order database, bottleneck, external
    integration, cross-domain, else the raw title. The keywords of the
    classification are its own: "database" or "shared"; "auth" or
    "bottleneck"; "stripe" or "integration"; "cross-domain" or "coupling".
    Each set is part of the keyword set of the corresponding pattern flag, so
    an insight classified into a category sets that flag. *)
Theorem topFragilities_spec (insights : list Insight) :
  topFragilities toLowerCase insights
  = List.map
      (fun i => {| signal := classify toLowerCase signalTable (title i);
                   fragility_summary := summary i |})
      (firstn 3
         (List.filter (fun i => is_high (severity i) || is_medium (severity i))
            insights))
  /\ (length (topFragilities toLowerCase insights) <= 3)%nat
  /\ (forall i, In i (selected insights) ->
        In i insights /\ (severity i = high \/ severity i = medium))
  /\ (forall i, In i (selected insights) ->
        (matches toLowerCase (title i) [js "database"; js "shared"] = true ->
         hasDatabaseRisk toLowerCase insights = true)
        /\ (matches toLowerCase (title i) [js "auth"; js "bottleneck"] = true ->
            hasBottleneck toLowerCase insights = true)
        /\ (matches toLowerCase (title i) [js "stripe"; js "integration"] = true ->
            hasExternalDependency toLowerCase insights = true)
        /\ (matches toLowerCase (title i) [js "cross-domain"; js "coupling"] = true ->
            hasCrossDomain toLowerCase insights = true)).
Proof.
  split; [apply topFragilities_classify|].
  split.
  { rewrite topFragilities_classify, List.length_map. apply selected_length. }
  split; [apply selected_In|].
  intros i Hi. apply selected_In in Hi as [Hin _].
  repeat apply conj; apply matches_flag; intros H;
    (eapply existsb_In; [exact Hin|]); cbv beta; rewrite H;
    rewrite ?orb_true_r; reflexivity.
Qed.

End Facts.

(** The first three of the four insights of [ArcSightReport], whatever
    their other fields: the fourth, of high severity too, is cut off. *)
Example topFragilities_fixture (s1 s2 s3 s4 : jsstring) :
  List.map signal
    (topFragilities toLowerCase_ascii
       [ {| id := 1; title := js "Shared Database Fragility"; severity := high;
            summary := s1; files := None; recommendation := None |};
         {| id := 2; title := js "Auth Service as Structural Bottleneck";
            severity := high;
            summary := s2; files := None; recommendation := None |};
         {| id := 3; title := js "Stripe Integration Blast Radius";
            severity := medium;
            summary := s3; files := None; recommendation := None |};
         {| id := 4; title := js "Cross-Domain Database Write Fragility";
            severity := high;
            summary := s4; files := None; recommendation := None |} ])
  = [js "Shared Database Risk"; js "Structural Bottleneck";
     js "External API Blast Radius"].
Proof. vm_compute. reflexivity. Qed.

(** C9 as stated fails on a high-severity insight titled "Schema Drift": the
    database flag is set by the keyword "schema", the classification by the
    policy of the flags names it a database risk, and [topFragilities] gives
    the raw title. *)
Lemma schema_title_not_classified :
  hasDatabaseRisk toLowerCase_ascii
    [ {| id := 1; title := js "Schema Drift"; severity := high;
         summary := js "s"; files := None; recommendation := None |} ]
  = true
  /\ spec_topFragilities toLowerCase_ascii
       [ {| id := 1; title := js "Schema Drift"; severity := high;
            summary := js "s"; files := None; recommendation := None |} ]
     = [ {| signal := js "Shared Database Risk"; fragility_summary := js "s" |} ]
  /\ topFragilities toLowerCase_ascii
       [ {| id := 1; title := js "Schema Drift"; severity := high;
            summary := js "s"; files := None; recommendation := None |} ]
     = [ {| signal := js "Schema Drift"; fragility_summary := js "s" |} ].
Proof. repeat apply conj; vm_compute; reflexivity. Qed.

(** A medium insight classified as a bottleneck sets the bottleneck flag. *)
Lemma topFragilities_spec_witness :
  hasBottleneck toLowerCase_ascii
    [ {| id := 7; title := js "AUTH everywhere"; severity := medium;
         summary := js "s"; files := None; recommendation := None |} ]
  = true.
Proof.
  refine (proj1 (proj2 (proj2 (proj2 (proj2
            (topFragilities_spec toLowerCase_ascii
               [ {| id := 7; title := js "AUTH everywhere"; severity := medium;
                    summary := js "s"; files := None; recommendation := None |} ])))
            {| id := 7; title := js "AUTH everywhere"; severity := medium;
               summary := js "s"; files := None; recommendation := None |} _)) _).
  - vm_compute. left. reflexivity.
  - vm_compute. reflexivity.
Defined.

End ArcSightFacts.

(** ** [normalizeString]: what is stripped and what is kept *)

Lemma trimStart_split (s : jsstring) :
  exists before, s = before ++ trimStart s /\ forallb isWhiteSpace before = true.
Proof.
  induction s as [|c s (before & E & Hb)]; [now exists []|].
  cbn [trimStart]. destruct (isWhiteSpace c) eqn:Hc.
  - exists (c :: before). cbn [forallb app]. rewrite Hc, Hb. now rewrite <- E.
  - now exists [].
Qed.

Lemma trimEnd_split (s : jsstring) :
  exists after, s = trimEnd s ++ after /\ forallb isWhiteSpace after = true.
Proof.
  induction s as [|c s (after & E & Ha)]; [now exists []|].
  cbn [trimEnd]. destruct (trimEnd s) as [|d t] eqn:Et.
  - destruct (isWhiteSpace c) eqn:Hc.
    + exists (c :: s). split; [reflexivity|].
      cbn [forallb]. rewrite Hc. cbn [app] in E. now rewrite E.
    + exists s. split; [reflexivity|]. cbn [app] in E. now rewrite E.
  - exists after. split; [|exact Ha]. now rewrite E at 1.
Qed.

Lemma trimEnd_last (s : jsstring) :
  trimEnd s = [] \/
  exists u d, trimEnd s = u ++ [d] /\ isWhiteSpace d = false.
Proof.
  induction s as [|c s IH]; [now left|].
  cbn [trimEnd]. destruct (trimEnd s) as [|e t] eqn:Et.
  - destruct (isWhiteSpace c) eqn:Hc; [now left|].
    right. now exists [], c.
  - right. destruct IH as [IH|(u & d & E & Hd)]; [discriminate IH|].
    exists (c :: u), d. split; [|exact Hd]. now rewrite E.
Qed.

Lemma trimStart_blank (s : jsstring) :
  forallb isWhiteSpace s = true -> trimStart s = [].
Proof.
  induction s as [|c s IH]; [reflexivity|].
  cbn [forallb trimStart]. intros H. apply andb_true_iff in H as [Hc Hs].
  rewrite Hc. now apply IH.
Qed.

Lemma trim_split (s : jsstring) :
  exists before after,
    s = before ++ trim s ++ after
    /\ forallb isWhiteSpace before = true
    /\ forallb isWhiteSpace after = true.
Proof.
  destruct (trimStart_split s) as (before & E1 & Hb).
  destruct (trimEnd_split (trimStart s)) as (after & E2 & Ha).
  exists before, after. unfold trim. now rewrite <- E2.
Qed.

Lemma trim_blank_iff (s : jsstring) :
  trim s = [] <-> forallb isWhiteSpace s = true.
Proof.
  split.
  - intros E. destruct (trim_split s) as (before & after & Es & Hb & Ha).
    rewrite E in Es. cbn [app] in Es. rewrite Es, forallb_app, Hb, Ha.
    reflexivity.
  - intros H. unfold trim. now rewrite (trimStart_blank s H).
Qed.

Lemma trim_ends (s : jsstring) :
  trim s <> [] ->
  (exists c t, trim s = c :: t /\ isWhiteSpace c = false)
  /\ (exists u d, trim s = u ++ [d] /\ isWhiteSpace d = false).
Proof.
  intros Hne. split.
  - unfold trim in *.
    destruct (trimStart_cases s) as [E | (c & t & E & Hc)].
    + rewrite E in Hne. now elim Hne.
    + rewrite E. destruct (trimEnd_cons_keep c t Hc) as [u Hu].
      now exists c, u.
  - destruct (trimEnd_last (trimStart s)) as [E|H]; [now elim Hne|exact H].
Qed.

(** X1. [normalizeString] gives the fallback for a string made of
    whitespace only (the empty string too); for any other string it gives
    the string without its leading and trailing whitespace, the text between
    them unchanged: the result starts and ends with a character that is not
    whitespace. *)
Theorem normalizeString_strips_only_ends (s fallback : jsstring) :
  (forallb isWhiteSpace s = true
   /\ normalizeString (VString s) fallback = fallback)
  \/ (forallb isWhiteSpace s = false
      /\ (exists before after,
             s = before ++ normalizeString (VString s) fallback ++ after
             /\ forallb isWhiteSpace before = true
             /\ forallb isWhiteSpace after = true)
      /\ (exists c t, normalizeString (VString s) fallback = c :: t
                      /\ isWhiteSpace c = false)
      /\ (exists u d, normalizeString (VString s) fallback = u ++ [d]
                      /\ isWhiteSpace d = false)).
Proof.
  cbn [normalizeString].
  destruct (trim s) as [|c t] eqn:E.
  - left. split; [|reflexivity]. now apply trim_blank_iff.
  - right. cbn [truthy_string]. rewrite <- E.
    assert (Hne : trim s <> []) by (rewrite E; discriminate).
    split.
    { destruct (forallb isWhiteSpace s) eqn:Hb; [|reflexivity].
      apply trim_blank_iff in Hb. now elim Hne. }
    split; [apply trim_split|]. now apply trim_ends.
Qed.

(** X2. With a fallback that has no surrounding whitespace,
    [normalizeString] is idempotent: normalizing its own result against the
    same fallback changes nothing. *)
Theorem normalizeString_idempotent (v : value) (fallback : jsstring) :
  trim fallback = fallback ->
  normalizeString (VString (normalizeString v fallback)) fallback
  = normalizeString v fallback.
Proof.
  intros Hf.
  assert (Hfb : normalizeString (VString fallback) fallback = fallback).
  { cbn [normalizeString]. rewrite Hf. now destruct (truthy_string fallback). }
  destruct v as [| |b|n|s|l|o]; try exact Hfb.
  cbn [normalizeString].
  destruct (truthy_string (trim s)) eqn:E; [|exact Hfb].
  cbn [normalizeString]. now rewrite trim_idem, E.
Qed.

Lemma normalizeString_idempotent_witness :
  trim (js "Not provided") = js "Not provided"
  /\ normalizeString
       (VString (normalizeString (VString (js "  src/a.ts ")) (js "Not provided")))
       (js "Not provided")
     = normalizeString (VString (js "  src/a.ts ")) (js "Not provided").
Proof.
  assert (E : trim (js "Not provided") = js "Not provided")
    by (vm_compute; reflexivity).
  split; [exact E|].
  exact (normalizeString_idempotent (VString (js "  src/a.ts ")) (js "Not provided") E).
Defined.

(** ** Scores: order and colour *)

Lemma Qfloor_ge_iff (k : Z) (q : Q) :
  (k <= Qfloor q)%Z <-> (inject_Z k <= q)%Q.
Proof.
  split; intros H.
  - apply Qle_trans with (inject_Z (Qfloor q)); [|apply Qfloor_le].
    now rewrite <- Zle_Qle.
  - rewrite <- (Qfloor_Z k). now apply Qfloor_resp_le.
Qed.

Lemma round_ge_iff (k : Z) (x : Q) :
  (k <= Qfloor (x + (1 # 2)))%Z <-> ((2 * k - 1) # 2 <= x)%Q.
Proof.
  rewrite Qfloor_ge_iff. destruct x as [n d].
  unfold Qle, Qplus, inject_Z. cbn [Qnum Qden].
  rewrite !Pos2Z.inj_mul. nia.
Qed.

Lemma ge_int (a b : Z) : ge (int a) (int b) = (b <=? a)%Z.
Proof.
  unfold ge, int, inject_Z, Qle_bool. cbn [Qnum Qden].
  now rewrite !Z.mul_1_r.
Qed.

Lemma clamped_ge_iff (k : Z) (x : Q) :
  (0 < k <= 100)%Z ->
  (k <=? Z.min 100 (Z.max 0 (Qfloor (x + (1 # 2)))))%Z
  = Qle_bool ((2 * k - 1) # 2) x.
Proof.
  intros Hk. apply eq_true_iff_eq.
  rewrite Z.leb_le, Qle_bool_iff, <- round_ge_iff. lia.
Qed.

(** X3. [clampScore] keeps the order of finite scores: a larger input never
    gets a smaller score. *)
Theorem clampScore_monotone (x y : Q) :
  (x <= y)%Q ->
  exists a b : Z,
    clampScore (VNumber (Finite x)) = int a
    /\ clampScore (VNumber (Finite y)) = int b
    /\ (a <= b)%Z.
Proof.
  intros H. rewrite !clampScore_finite.
  eexists _, _. split; [reflexivity|]. split; [reflexivity|].
  assert (Hf : (Qfloor (x + (1 # 2)) <= Qfloor (y + (1 # 2)))%Z).
  { apply Qfloor_resp_le. now apply Qplus_le_l. }
  lia.
Qed.

Lemma clampScore_monotone_witness :
  (399 # 10 <= 795 # 10)%Q
  /\ exists a b : Z,
       clampScore (VNumber (Finite (399 # 10))) = int a
       /\ clampScore (VNumber (Finite (795 # 10))) = int b
       /\ (a <= b)%Z.
Proof.
  assert (H : (399 # 10 <= 795 # 10)%Q) by (unfold Qle; cbn; lia).
  split; [exact H|].
  exact (clampScore_monotone (399 # 10) (795 # 10) H).
Defined.

(** X4. The colour of the score shown for an uploaded value: green from 79.5
    up, blue from 59.5, yellow from 39.5, red below; and red for anything
    that is not a finite number ([Infinity] too), whose score is 0. *)
Theorem score_colour_thresholds :
  (forall x : Q,
      getScoreTextColor (clampScore (VNumber (Finite x)))
      = if Qle_bool (159 # 2) x then js "text-green-600"
        else if Qle_bool (119 # 2) x then js "text-blue-600"
        else if Qle_bool (79 # 2) x then js "text-yellow-600"
        else js "text-red-600")
  /\ (forall v : value,
        (forall x : Q, v <> VNumber (Finite x)) ->
        getScoreTextColor (clampScore v) = js "text-red-600")
  /\ getScoreTextColor NaN = js "text-red-600".
Proof.
  split; [|split].
  - intros x. rewrite clampScore_finite. unfold getScoreTextColor.
    rewrite !ge_int.
    rewrite (clamped_ge_iff 80), (clamped_ge_iff 60), (clamped_ge_iff 40) by lia.
    reflexivity.
  - intros v Hv.
    assert (E : clampScore v = int 0).
    { destruct v as [| |b|n|s|l|o]; try reflexivity.
      destruct n as [|neg|q]; try reflexivity. now elim (Hv q). }
    rewrite E. unfold getScoreTextColor. rewrite !ge_int. reflexivity.
  - reflexivity.
Qed.

Lemma score_colour_thresholds_witness :
  getScoreTextColor (clampScore (VNumber (Infinity false))) = js "text-red-600".
Proof.
  refine (proj1 (proj2 score_colour_thresholds) (VNumber (Infinity false)) _).
  intros x H. discriminate H.
Defined.

(** ** Risk cards *)

Lemma getRiskCardStyles_by_icon (sev : jsstring) :
  getRiskCardStyles sev
  = if includes sev (js "🔴") then
      {| bg := js "bg-red-50"; border := js "border-red-300";
         text := js "text-red-800"; icon := js "🚨" |}
    else if includes sev (js "🟠") then
      {| bg := js "bg-amber-50"; border := js "border-amber-300";
         text := js "text-amber-800"; icon := js "⚠️" |}
    else if includes sev (js "🟡") then
      {| bg := js "bg-blue-50"; border := js "border-blue-300";
         text := js "text-blue-800"; icon := js "ℹ️" |}
    else
      {| bg := js "bg-gray-50"; border := js "border-gray-300";
         text := js "text-gray-800"; icon := js "ℹ️" |}.
Proof.
  unfold getRiskCardStyles.
  destruct (includes sev (js "🔴")); [|reflexivity].
  now destruct (includes sev (js "Critical")).
Qed.

Lemma card_of_tag (s tag : jsstring) (c : CardStyles) :
  trim s = tag ->
  getRiskCardStyles (severity (translateRisk tag)) = c ->
  getRiskCardStyles (severity (translateRisk s)) = c.
Proof.
  intros Hs Hc.
  destruct (translateRisk_trim s) as [E _]. rewrite E, Hs. exact Hc.
Qed.

(** X5. The card of a risk, from its type: the red card with the siren for
    [APICallInUI], [FlatStructure] and [CircularImport] (a Critical risk and
    a High risk look the same: the test for "Critical" changes nothing), the
    amber card for [LogicInUI], the blue card for [HugeComponent], and the
    gray card for every other type. *)
Theorem risk_card_by_type :
  (forall s,
      In (trim s) [js "APICallInUI"; js "FlatStructure"; js "CircularImport"] ->
      getRiskCardStyles (severity (translateRisk s))
      = {| bg := js "bg-red-50"; border := js "border-red-300";
           text := js "text-red-800"; icon := js "🚨" |})
  /\ (forall s,
        trim s = js "LogicInUI" ->
        getRiskCardStyles (severity (translateRisk s))
        = {| bg := js "bg-amber-50"; border := js "border-amber-300";
             text := js "text-amber-800"; icon := js "⚠️" |})
  /\ (forall s,
        trim s = js "HugeComponent" ->
        getRiskCardStyles (severity (translateRisk s))
        = {| bg := js "bg-blue-50"; border := js "border-blue-300";
             text := js "text-blue-800"; icon := js "ℹ️" |})
  /\ (forall s,
        ~ In (trim s) [js "APICallInUI"; js "LogicInUI"; js "FlatStructure";
                       js "HugeComponent"; js "CircularImport"] ->
        getRiskCardStyles (severity (translateRisk s))
        = {| bg := js "bg-gray-50"; border := js "border-gray-300";
             text := js "text-gray-800"; icon := js "ℹ️" |})
  /\ (forall sev,
        includes sev (js "🔴") = true ->
        getRiskCardStyles sev
        = {| bg := js "bg-red-50"; border := js "border-red-300";
             text := js "text-red-800"; icon := js "🚨" |}).
Proof.
  split; [|split; [|split; [|split]]].
  - intros s [H|[H|[H|[]]]]; symmetry in H;
      (eapply card_of_tag; [exact H|]); vm_compute; reflexivity.
  - intros s H. eapply card_of_tag; [exact H|]; vm_compute; reflexivity.
  - intros s H. eapply card_of_tag; [exact H|]; vm_compute; reflexivity.
  - intros s H.
    rewrite translateRisk_unknown by (intros E; apply H; rewrite E; cbn [In]; tauto).
    vm_compute. reflexivity.
  - intros sev H. rewrite getRiskCardStyles_by_icon. now rewrite H.
Qed.

Lemma risk_card_by_type_witness :
  getRiskCardStyles (severity (translateRisk (js " FlatStructure ")))
  = {| bg := js "bg-red-50"; border := js "border-red-300";
       text := js "text-red-800"; icon := js "🚨" |}.
Proof.
  refine (proj1 risk_card_by_type (js " FlatStructure ") _).
  vm_compute. right. left. reflexivity.
Defined.

(** ** Growth stage pills *)

(** X6. Whatever the stage of the report, exactly one of the first two
    pills is highlighted: Graduation Moment when the stage contains
    "Graduation" (the comparison with "Graduation Moment" adds nothing),
    Prototype otherwise. The Product-Ready pill is never highlighted. *)
Theorem stage_pills (stage : jsstring) :
  isCurrent stage = includes stage (js "Graduation")
  /\ isActive stage 1 = includes stage (js "Graduation")
  /\ isActive stage 0 = negb (includes stage (js "Graduation"))
  /\ (forall index : nat, (2 <= index)%nat -> isActive stage index = false).
Proof.
  assert (E : isCurrent stage = includes stage (js "Graduation")).
  { unfold isCurrent. case_bool_decide as H; [|reflexivity].
    rewrite H. vm_compute. reflexivity. }
  split; [exact E|]. unfold isActive. rewrite E.
  split; [|split].
  - cbn [Nat.eqb]. now destruct (includes stage (js "Graduation")).
  - cbn [Nat.eqb]. now destruct (includes stage (js "Graduation")).
  - intros index Hi.
    assert (H1 : (index =? 1)%nat = false) by (apply Nat.eqb_neq; lia).
    assert (H0 : (index =? 0)%nat = false) by (apply Nat.eqb_neq; lia).
    rewrite H1, H0. now rewrite !andb_false_r.
Qed.

Lemma stage_pills_witness :
  isActive (js "Product-Ready") 2 = false.
Proof.
  refine (proj2 (proj2 (proj2 (stage_pills (js "Product-Ready")))) 2%nat _).
  lia.
Defined.

(** ** [mapToReport]: the properties it reads *)

Lemma prop_insert_ne (props : gmap jsstring value) (k k' : jsstring) (v : value) :
  k <> k' -> prop (VObject (<[k:=v]> props)) k' = prop (VObject props) k'.
Proof. intros H. unfold prop. now rewrite lookup_insert_ne. Qed.

(** X7. [mapToReport] reads seven properties of the uploaded object and
    nothing else: a property under any other name, whatever its value, does
    not change the Report. In the same way only the six names [type], [file],
    [filePath], [why], [whyItMatters], [explanation] of a risk are read. *)
Theorem unknown_properties_ignored :
  (forall (props : gmap jsstring value) (k : jsstring) (v : value),
      ~ In k [js "structuralViabilityScore"; js "viabilityScore"; js "stage";
              js "summary"; js "recommendedNextStep"; js "nextStep";
              js "risks"] ->
      mapToReport (VObject (<[k:=v]> props)) = mapToReport (VObject props))
  /\ (forall (props : gmap jsstring value) (k : jsstring) (v : value),
        ~ In k [js "type"; js "file"; js "filePath"; js "why";
                js "whyItMatters"; js "explanation"] ->
        asRiskArray (VArray [VObject (<[k:=v]> props)])
        = asRiskArray (VArray [VObject props])).
Proof.
  split.
  - intros props k v H.
    rewrite !mapToReport_eq by reflexivity. unfold normalized.
    rewrite !(prop_insert_ne props k _ v)
      by (intros E; apply H; rewrite E; cbn [In]; tauto).
    reflexivity.
  - intros props k v H.
    rewrite !asRiskArray_singleton. unfold normalizeRisk.
    rewrite !(prop_insert_ne props k _ v)
      by (intros E; apply H; rewrite E; cbn [In]; tauto).
    reflexivity.
Qed.

Lemma unknown_properties_ignored_witness :
  mapToReport
    (VObject (<[js "score" := VNumber (int 99)]>
                (<[js "stage" := VString (js "Prototype")]> ∅)))
  = mapToReport (VObject (<[js "stage" := VString (js "Prototype")]> ∅)).
Proof.
  refine (proj1 unknown_properties_ignored
            (<[js "stage" := VString (js "Prototype")]> ∅)
            (js "score") (VNumber (int 99)) _).
  vm_compute. intuition discriminate.
Defined.

(** X8. Every uploaded value that is neither an object nor [null] (a
    number, a string, a boolean, an array) gives one and the same Report, the
    one of the empty object: score 0, stage "Not provided", the placeholder
    summary and next step, no risk. *)
Theorem non_object_gives_defaults (raw : value) :
  nullish raw = false ->
  (forall props, raw <> VObject props) ->
  mapToReport raw = mapToReport (VObject ∅)
  /\ mapToReport raw
     = Normal {| structuralViabilityScore := int 0;
                 stage := js "Not provided";
                 summary := summary placeholderReport;
                 recommendedNextStep := recommendedNextStep placeholderReport;
                 risks := [] |}.
Proof.
  intros Hn Ho.
  assert (E : mapToReport (VObject ∅)
              = Normal {| structuralViabilityScore := int 0;
                          stage := js "Not provided";
                          summary := summary placeholderReport;
                          recommendedNextStep := recommendedNextStep placeholderReport;
                          risks := [] |})
    by (vm_compute; reflexivity).
  rewrite E.
  assert (F : mapToReport raw
              = Normal {| structuralViabilityScore := int 0;
                          stage := js "Not provided";
                          summary := summary placeholderReport;
                          recommendedNextStep := recommendedNextStep placeholderReport;
                          risks := [] |}).
  { destruct raw as [| |b|n|s|l|o]; try discriminate Hn;
      try (vm_compute; reflexivity).
    now elim (Ho o). }
  split; exact F.
Qed.

Lemma non_object_gives_defaults_witness :
  nullish (VArray [VString (js "x")]) = false
  /\ mapToReport (VArray [VString (js "x")]) = mapToReport (VObject ∅).
Proof.
  split; [reflexivity|].
  refine (proj1 (non_object_gives_defaults (VArray [VString (js "x")]) _ _)).
  - reflexivity.
  - intros props H. discriminate H.
Defined.

(** ** Field aliases: [null] and unusable values *)

Lemma normalizeString_not_string (v : value) (fallback : jsstring) :
  (forall s, v = VString s -> forallb isWhiteSpace s = true) ->
  normalizeString v fallback = fallback.
Proof.
  intros H. destruct v as [| |b|n|s|l|o]; try reflexivity.
  cbn [normalizeString].
  assert (E : trim s = []) by (apply trim_blank_iff, H; reflexivity).
  now rewrite E.
Qed.

(** X9. A first-listed name that holds [null] counts as absent: the alias
    is read. A first-listed name that holds any other unusable value hides
    its alias: a [structuralViabilityScore] that is not a finite number gives
    the score 0 whatever [viabilityScore] holds, and a [file] that is not a
    string with content gives the file path "Not provided" whatever
    [filePath] holds. *)
Theorem alias_null_and_unusable :
  (forall props : gmap jsstring value,
      props !! js "structuralViabilityScore" = Some VNull ->
      exists r, mapToReport (VObject props) = Normal r
                /\ structuralViabilityScore r
                   = clampScore (prop (VObject props) (js "viabilityScore")))
  /\ (forall props : gmap jsstring value,
        props !! js "file" = Some VNull ->
        exists r, asRiskArray (VArray [VObject props]) = Normal [r]
                  /\ filePath r
                     = normalizeString (prop (VObject props) (js "filePath"))
                         (js "Not provided"))
  /\ (forall (props : gmap jsstring value) (sv : value),
        props !! js "structuralViabilityScore" = Some sv ->
        nullish sv = false ->
        (forall x : Q, sv <> VNumber (Finite x)) ->
        exists r, mapToReport (VObject props) = Normal r
                  /\ structuralViabilityScore r = int 0)
  /\ (forall (props : gmap jsstring value) (f : value),
        props !! js "file" = Some f ->
        nullish f = false ->
        (forall s, f = VString s -> forallb isWhiteSpace s = true) ->
        exists r, asRiskArray (VArray [VObject props]) = Normal [r]
                  /\ filePath r = js "Not provided").
Proof.
  split; [|split; [|split]].
  - intros props H. exists (normalized (VObject props)).
    split; [now apply mapToReport_eq|].
    cbn [normalized structuralViabilityScore].
    now rewrite (prop_Some _ _ _ H), or_else_absent.
  - intros props H. exists (normalizeRisk (VObject props)).
    split; [apply asRiskArray_singleton|].
    cbn [normalizeRisk filePath].
    now rewrite (prop_Some _ _ _ H), or_else_absent.
  - intros props sv H Hn Hx. exists (normalized (VObject props)).
    split; [now apply mapToReport_eq|].
    cbn [normalized structuralViabilityScore].
    rewrite (prop_Some _ _ _ H), (or_else_present _ _ Hn).
    destruct sv as [| |b|n|s|l|o]; try reflexivity.
    destruct n as [|neg|q]; try reflexivity. now elim (Hx q).
  - intros props f H Hn Hs. exists (normalizeRisk (VObject props)).
    split; [apply asRiskArray_singleton|].
    cbn [normalizeRisk filePath].
    rewrite (prop_Some _ _ _ H), (or_else_present _ _ Hn).
    now apply normalizeString_not_string.
Qed.

Lemma alias_null_and_unusable_witness :
  exists r,
    asRiskArray
      (VArray [VObject (<[js "file" := VString (js " ")]>
                          (<[js "filePath" := VString (js "b.ts")]> ∅))])
    = Normal [r]
    /\ filePath r = js "Not provided".
Proof.
  refine (proj2 (proj2 (proj2 alias_null_and_unusable))
            (<[js "file" := VString (js " ")]>
               (<[js "filePath" := VString (js "b.ts")]> ∅))
            (VString (js " ")) _ _ _).
  - vm_compute. reflexivity.
  - reflexivity.
  - intros s [= <-]. vm_compute. reflexivity.
Defined.

(** ** [asRiskArray]: concatenation, length, and what the cards show *)

(** X10. [asRiskArray] works element by element: the risks of a
    concatenation are the risks of its parts, in order; the number of risks
    is the number of elements that are objects, never more than the length of
    the array. *)
Theorem asRiskArray_app (a b : list value) :
  exists ra rb : list Risk,
    asRiskArray (VArray a) = Normal ra
    /\ asRiskArray (VArray b) = Normal rb
    /\ asRiskArray (VArray (a ++ b)) = Normal (ra ++ rb)
    /\ length ra = length (List.filter isRecord a)
    /\ (length ra <= length a)%nat.
Proof.
  exists (risksOf (VArray a)), (risksOf (VArray b)).
  split; [apply asRiskArray_array|].
  split; [apply asRiskArray_array|].
  split; [|split].
  - rewrite asRiskArray_array. cbn [risksOf].
    now rewrite List.filter_app, List.map_app.
  - cbn [risksOf]. apply List.length_map.
  - cbn [risksOf]. rewrite List.length_map. apply List.filter_length_le.
Qed.

Lemma label_not_empty (t : jsstring) :
  t <> [] -> label (translateRisk t) <> [].
Proof.
  intros Ht. unfold translateRisk.
  repeat (case_tag; [vm_compute; discriminate|]).
  exact Ht.
Qed.

(** X11. Every risk [asRiskArray] returns can be shown: its type is stored
    trimmed, so [translateRisk] matches it as it is, and the label of its
    translation is not empty. *)
Theorem risks_have_labels (items : list value) (rs : list Risk) :
  asRiskArray (VArray items) = Normal rs ->
  Forall (fun r => trim (type r) = type r
                   /\ label (translateRisk (type r)) <> []) rs.
Proof.
  intros H. rewrite asRiskArray_array in H. injection H as <-.
  apply List.Forall_forall. intros r Hr.
  apply in_map_iff in Hr as (item & <- & _).
  destruct (WellFormedRisk_normalizeRisk item) as ((Hne & Ht) & _).
  split; [exact Ht|]. now apply label_not_empty.
Qed.

Lemma risks_have_labels_witness :
  Forall (fun r => trim (type r) = type r
                   /\ label (translateRisk (type r)) <> [])
    [{| type := js "Not provided";
        filePath := js "Not provided";
        explanation := js "Not provided" |}].
Proof.
  refine (risks_have_labels [VArray []] _ _).
  vm_compute. reflexivity.
Defined.

(** ** The page as a state machine *)

Lemma WellFormed_placeholderReport : WellFormed placeholderReport.
Proof.
  split; [exists 0%Z; split; [lia|reflexivity]|].
  split; [split; [vm_compute; discriminate|vm_compute; reflexivity]|].
  split; [apply Trimmed_placeholder_summary|].
  split; [apply Trimmed_placeholder_next|]. constructor.
Qed.

Lemma onload_try_WellFormed (l : loaded) (r : ReportData) :
  onload_try l = Normal r -> WellFormed r.
Proof.
  destruct l as [|[v|e]]; cbn [onload_try]; try discriminate.
  rewrite bind_Normal. intros H.
  destruct (nullish v) eqn:Hn.
  - rewrite (mapToReport_throws v Hn) in H. discriminate H.
  - rewrite (mapToReport_eq v Hn) in H. injection H as <-.
    apply WellFormed_normalized.
Qed.

Lemma coherent_step (st : state) (e : event) :
  coherent st -> coherent (step st e).
Proof.
  intros (Hw & Hp & Hf). destruct e as [[file|]|file l|]; cbn [step].
  - exact (conj Hw (conj Hp Hf)).
  - exact (conj Hw (conj Hp Hf)).
  - unfold reader_onload. destruct (onload_try l) as [r|e] eqn:E.
    + split; [exact (onload_try_WellFormed l r E)|].
      split; [discriminate|]. split; discriminate.
    + split; [exact WellFormed_placeholderReport|].
      split; [reflexivity|]. split; reflexivity.
  - exact (conj Hw (conj Hp Hf)).
Qed.

Lemma coherent_run (es : list event) (st : state) :
  coherent st -> coherent (run es st).
Proof.
  revert st. induction es as [|e es IH]; intros st H; [exact H|].
  cbn [run fold_left]. apply IH. now apply coherent_step.
Qed.

(** X12. Whatever files are selected and however their reads end, in any
    order, the page always displays a valid Report; when the placeholder
    flag is set the Report is the placeholder Report; and a file name is
    shown exactly when the flag is not set. *)
Theorem display_always_coherent (es : list event) :
  WellFormed (report (run es initial))
  /\ (isPlaceholder (run es initial) = true ->
      report (run es initial) = placeholderReport)
  /\ (isPlaceholder (run es initial) = true <->
      fileName (run es initial) = None).
Proof.
  apply (coherent_run es initial).
  split; [exact WellFormed_placeholderReport|].
  split; [reflexivity|]. split; reflexivity.
Qed.

Lemma reader_onload_independent (file : File) (l : loaded) (st1 st2 : state) :
  report (reader_onload file l st1) = report (reader_onload file l st2)
  /\ isPlaceholder (reader_onload file l st1)
     = isPlaceholder (reader_onload file l st2)
  /\ fileName (reader_onload file l st1) = fileName (reader_onload file l st2).
Proof.
  unfold reader_onload. now destruct (onload_try l).
Qed.

(** X13. The read that finishes last decides what is displayed, whatever
    was displayed before and whichever file was selected last: when a file A
    is selected, then a file B, and the read of B ends before the read of A,
    the page shows the Report and the name of A. If the content of B did not
    parse and the content of A did, the Report of A is shown together with
    the parse error of B. *)
Theorem last_finished_read_wins (a b : File) (la lb : loaded) (st : state) :
  (report (run [FileChange (Some a); FileChange (Some b);
                Onload b lb; Onload a la] st)
   = report (upload a (ReadDone la) st)
   /\ isPlaceholder (run [FileChange (Some a); FileChange (Some b);
                          Onload b lb; Onload a la] st)
      = isPlaceholder (upload a (ReadDone la) st)
   /\ fileName (run [FileChange (Some a); FileChange (Some b);
                     Onload b lb; Onload a la] st)
      = fileName (upload a (ReadDone la) st))
  /\ (forall (r : ReportData) (e : exn),
        onload_try la = Normal r -> onload_try lb = Throw e ->
        run [FileChange (Some a); FileChange (Some b);
             Onload b lb; Onload a la] st
        = {| report := r; isPlaceholder := false;
             error := Some parseFailureMessage;
             fileName := Some (name a) |}).
Proof.
  split.
  - cbn [run fold_left step upload]. apply reader_onload_independent.
  - intros r e Ha Hb. cbn [run fold_left step].
    unfold reader_onload. rewrite Ha, Hb. reflexivity.
Qed.

Lemma last_finished_read_wins_witness :
  run [FileChange (Some {| name := js "a.json" |});
       FileChange (Some {| name := js "b.json" |});
       Onload {| name := js "b.json" |} (Text (Throw SyntaxError));
       Onload {| name := js "a.json" |} (Text (Normal (VObject ∅)))] initial
  = {| report := normalized (VObject ∅); isPlaceholder := false;
       error := Some parseFailureMessage;
       fileName := Some (js "a.json") |}.
Proof.
  refine (proj2 (last_finished_read_wins
                   {| name := js "a.json" |} {| name := js "b.json" |}
                   (Text (Normal (VObject ∅))) (Text (Throw SyntaxError))
                   initial)
            (normalized (VObject ∅)) SyntaxError _ _).
  - reflexivity.
  - reflexivity.
Defined.

(** ** [ArcSightExecutiveSummary]: counts *)

Module ExecutiveSummaryFacts.
Import ArcSight ExecutiveSummary.

Lemma counts_cons (i : Insight) (insights : list Insight) :
  counts_high (i :: insights)
  = ((if is_high (severity i) then 1 else 0) + counts_high insights)%nat
  /\ counts_medium (i :: insights)
     = ((if is_medium (severity i) then 1 else 0) + counts_medium insights)%nat
  /\ counts_low (i :: insights)
     = ((if is_low (severity i) then 1 else 0) + counts_low insights)%nat.
Proof.
  unfold counts_high, counts_medium, counts_low. cbn [List.filter].
  now destruct (severity i).
Qed.

Lemma selected_source_length (insights : list Insight) :
  length (List.filter (fun i => is_high (severity i) || is_medium (severity i))
            insights)
  = (counts_high insights + counts_medium insights)%nat.
Proof.
  induction insights as [|i insights IH]; [reflexivity|].
  destruct (counts_cons i insights) as (Hh & Hm & _). rewrite Hh, Hm.
  cbn [List.filter]. destruct (severity i); cbn [is_high is_medium orb length];
    rewrite ?IH; lia.
Qed.

(** X14. Every insight is counted once: the three counts add up to the
    total, and [hasHighRisk] holds exactly when some insight has the severity
    [high]. *)
Theorem counts_partition (insights : list Insight) :
  (counts_high insights + counts_medium insights + counts_low insights)%nat
  = total insights
  /\ (hasHighRisk insights = true
      <-> exists i, In i insights /\ severity i = high).
Proof.
  split.
  - unfold total. induction insights as [|i insights IH]; [reflexivity|].
    destruct (counts_cons i insights) as (Hh & Hm & Hl). rewrite Hh, Hm, Hl.
    cbn [length]. destruct (severity i); cbn [is_high is_medium is_low]; lia.
  - unfold hasHighRisk, counts_high. rewrite Nat.ltb_lt. split.
    + intros H.
      destruct (List.filter (fun i => is_high (severity i)) insights)
        as [|i l] eqn:E; [cbn in H; lia|].
      assert (Hi : In i (List.filter (fun i => is_high (severity i)) insights))
        by (rewrite E; now left).
      apply List.filter_In in Hi as [Hin Hs]. exists i. split; [exact Hin|].
      now destruct (severity i).
    + intros (i & Hin & Hs).
      assert (Hi : In i (List.filter (fun i => is_high (severity i)) insights))
        by (apply List.filter_In; split; [exact Hin|now rewrite Hs]).
      destruct (List.filter (fun i => is_high (severity i)) insights);
        [now elim Hi|cbn; lia].
Qed.

Section Signals.

Variable toLowerCase : jsstring -> jsstring.

(** X15. The list of top fragility signals has as many entries as there are
    insights of high or medium severity, up to three; it is empty, and its
    section hidden, exactly when no insight is high or medium. *)
Theorem topFragilities_length (insights : list Insight) :
  length (topFragilities toLowerCase insights)
  = Nat.min 3 (counts_high insights + counts_medium insights)
  /\ (topFragilities toLowerCase insights = []
      <-> counts_high insights = 0%nat /\ counts_medium insights = 0%nat).
Proof.
  assert (L : length (topFragilities toLowerCase insights)
              = Nat.min 3 (counts_high insights + counts_medium insights)).
  { unfold topFragilities.
    now rewrite List.length_map, List.length_firstn, selected_source_length. }
  split; [exact L|]. split.
  - intros E. rewrite E in L. cbn [length] in L. lia.
  - intros [Hh Hm]. rewrite Hh, Hm in L. cbn in L.
    now destruct (topFragilities toLowerCase insights).
Qed.

End Signals.

End ExecutiveSummaryFacts.

(** ** [includes]: substrings *)

Lemma startsWith_iff (s p : jsstring) :
  startsWith s p = true <-> exists after, s = p ++ after.
Proof.
  revert s. induction p as [|c p IH]; intros s.
  - destruct s; cbn [startsWith]; split; eauto.
  - destruct s as [|d s]; cbn [startsWith].
    + split; [discriminate|]. intros (after & E). discriminate E.
    + rewrite andb_true_iff, N.eqb_eq, IH. split.
      * intros (-> & after & ->). now exists after.
      * intros (after & E). injection E as -> ->. split; [reflexivity|].
        now exists after.
Qed.

Lemma includes_unfold (s p : jsstring) :
  includes s p
  = startsWith s p
    || match s with
       | [] => false
       | _ :: s' => includes s' p
       end.
Proof. now destruct s. Qed.

Lemma includes_iff (s p : jsstring) :
  includes s p = true <-> exists before after, s = before ++ p ++ after.
Proof.
  split.
  - induction s as [|c s IH]; rewrite includes_unfold, orb_true_iff.
    + intros [H|H]; [|discriminate H].
      apply startsWith_iff in H as (after & E). now exists [], after.
    + intros [H|H].
      * apply startsWith_iff in H as (after & E). now exists [], after.
      * destruct (IH H) as (before & after & E).
        exists (c :: before), after. now rewrite E.
  - intros (before & after & ->).
    induction before as [|c before IH]; rewrite includes_unfold, orb_true_iff.
    + left. apply startsWith_iff. now exists after.
    + right. exact IH.
Qed.

Lemma includes_trans (s a b : jsstring) :
  includes s a = true -> includes a b = true -> includes s b = true.
Proof.
  rewrite !includes_iff.
  intros (p1 & q1 & ->) (p2 & q2 & ->).
  exists (p1 ++ p2), (q2 ++ q1). now rewrite <- !app_assoc.
Qed.

(** ** [ArcSightExecutiveSummary]: flags and narrative *)

Module SummaryTextFacts.
Import ArcSight ExecutiveSummary.

Section Flags.

Variable toLowerCase : jsstring -> jsstring.

(** X16. The cross-domain flag is set exactly when some title contains, in
    lower case, "coupling" or "domain": its keyword "cross-domain" is never
    what decides, every title that contains it contains "domain". *)
Theorem hasCrossDomain_keywords (insights : list Insight) :
  hasCrossDomain toLowerCase insights
  = existsb
      (fun i =>
         includes (toLowerCase (title i)) (js "coupling")
         || includes (toLowerCase (title i)) (js "domain"))
      insights.
Proof.
  unfold hasCrossDomain.
  induction insights as [|i insights IH]; [reflexivity|].
  cbn [existsb]. rewrite IH. f_equal.
  destruct (includes (toLowerCase (title i)) (js "cross-domain")) eqn:E;
    [|reflexivity].
  assert (D : includes (toLowerCase (title i)) (js "domain") = true).
  { apply (includes_trans _ _ _ E). vm_compute. reflexivity. }
  rewrite D. now rewrite !orb_true_r.
Qed.

End Flags.

Lemma last_app_char (a b : jsstring) (c d : N) :
  List.last (a ++ b ++ [c]) d = c.
Proof. now rewrite app_assoc, List.last_last. Qed.

(** X17. The narrative of an empty list reads "ArcSight detected  risk
    that could impact ..." without any count, in the singular. Whatever the
    list, the narrative ends with the colon of "These structural fragilities
    can lead to:" when some insight is high, and with the full stop of its
    first sentence when none is. *)
Theorem narrative_ending (insights : list Insight) :
  narrative []
  = js "ArcSight detected  risk that could impact architectural stability, migration feasibility, and long-term roadmap agility."
  /\ List.last (narrative insights) 0
     = (if hasHighRisk insights then 0x3A else 0x2E)
  /\ (hasHighRisk insights = true ->
      exists first,
        narrative insights
        = first ++ js " These structural fragilities can lead to:")
  /\ (hasHighRisk insights = false ->
      exists first,
        narrative insights
        = first ++ js "long-term roadmap agility.").
Proof.
  assert (T : js " that could impact architectural stability, migration feasibility, and long-term roadmap agility."
              = js " that could impact architectural stability, migration feasibility, and "
                ++ js "long-term roadmap agility.")
    by (vm_compute; reflexivity).
  assert (A : js "long-term roadmap agility."
              = js "long-term roadmap agility" ++ [0x2E])
    by (vm_compute; reflexivity).
  assert (C : js " These structural fragilities can lead to:"
              = js " These structural fragilities can lead to" ++ [0x3A])
    by (vm_compute; reflexivity).
  split; [vm_compute; reflexivity|].
  unfold narrative. destruct (hasHighRisk insights).
  - split; [|split].
    + rewrite C. apply last_app_char.
    + intros _. eexists. reflexivity.
    + discriminate.
  - rewrite app_nil_r. split; [|split].
    + rewrite T, A. rewrite !app_assoc. apply List.last_last.
    + discriminate.
    + intros _. rewrite T. rewrite !app_assoc. eexists. reflexivity.
Qed.

End SummaryTextFacts.

(** ** [ArcSightDashboard]: filter, groups and badges *)

Module DashboardFacts.

Lemma grouped_from (l : list ArcSight.Insight) (g : Dashboard.Groups) :
  fold_left
    (fun g insight =>
       match ArcSight.severity insight with
       | ArcSight.high =>
         {| Dashboard.high := Dashboard.high g ++ [insight];
            Dashboard.medium := Dashboard.medium g;
            Dashboard.low := Dashboard.low g |}
       | ArcSight.medium =>
         {| Dashboard.high := Dashboard.high g;
            Dashboard.medium := Dashboard.medium g ++ [insight];
            Dashboard.low := Dashboard.low g |}
       | ArcSight.low =>
         {| Dashboard.high := Dashboard.high g;
            Dashboard.medium := Dashboard.medium g;
            Dashboard.low := Dashboard.low g ++ [insight] |}
       end) l g
  = {| Dashboard.high :=
         Dashboard.high g
         ++ List.filter (fun i => ArcSight.is_high (ArcSight.severity i)) l;
       Dashboard.medium :=
         Dashboard.medium g
         ++ List.filter (fun i => ArcSight.is_medium (ArcSight.severity i)) l;
       Dashboard.low :=
         Dashboard.low g
         ++ List.filter (fun i => ExecutiveSummary.is_low (ArcSight.severity i)) l |}.
Proof.
  revert g. induction l as [|i l IH]; intros g.
  - cbn [fold_left List.filter]. rewrite !app_nil_r. now destruct g.
  - cbn [fold_left List.filter]. rewrite IH.
    destruct (ArcSight.severity i);
      cbn [Dashboard.high Dashboard.medium Dashboard.low
           ArcSight.is_high ArcSight.is_medium ExecutiveSummary.is_low];
      now rewrite <- ?app_assoc.
Qed.

Lemma groupedInsights_filters (l : list ArcSight.Insight) :
  Dashboard.groupedInsights l
  = {| Dashboard.high :=
         List.filter (fun i => ArcSight.is_high (ArcSight.severity i)) l;
       Dashboard.medium :=
         List.filter (fun i => ArcSight.is_medium (ArcSight.severity i)) l;
       Dashboard.low :=
         List.filter (fun i => ExecutiveSummary.is_low (ArcSight.severity i)) l |}.
Proof. unfold Dashboard.groupedInsights. now rewrite grouped_from. Qed.

Lemma filter_filter {A : Type} (f g : A -> bool) (l : list A) :
  List.filter f (List.filter g l) = List.filter (fun x => g x && f x) l.
Proof.
  induction l as [|x l IH]; [reflexivity|].
  cbn [List.filter]. destruct (g x); cbn [List.filter andb]; now rewrite IH.
Qed.

Lemma filter_none {A : Type} (f : A -> bool) (l : list A) :
  (forall x, f x = false) -> List.filter f l = [].
Proof.
  intros H. induction l as [|x l IH]; [reflexivity|].
  cbn [List.filter]. now rewrite H.
Qed.

Section Filtered.

Variable toLowerCase : jsstring -> jsstring.
Hypothesis lowers : Dashboard.lowers_tags toLowerCase.

Lemma filter_test (sev : ArcSight.Severity) (f : Dashboard.FilterType) :
  f <> Dashboard.All ->
  bool_decide
    (toLowerCase (Dashboard.Severity_string sev)
     = toLowerCase (Dashboard.FilterType_string f))
  = match f, sev with
    | Dashboard.High, ArcSight.high
    | Dashboard.Medium, ArcSight.medium
    | Dashboard.Low, ArcSight.low => true
    | _, _ => false
    end.
Proof.
  intros Hf.
  assert (L : forall s,
             In s [js "high"; js "medium"; js "low";
                   js "High"; js "Medium"; js "Low"] ->
             toLowerCase s = ArcSight.toLowerCase_ascii s) by exact lowers.
  destruct f; [now elim Hf| | |]; destruct sev;
    cbn [Dashboard.Severity_string Dashboard.FilterType_string];
    rewrite !L by (cbn [In]; tauto); vm_compute; reflexivity.
Qed.

Lemma filteredInsights_by_severity (insights : list ArcSight.Insight)
    (f : Dashboard.FilterType) :
  Dashboard.filteredInsights toLowerCase insights f
  = match f with
    | Dashboard.All => insights
    | Dashboard.High =>
      List.filter (fun i => ArcSight.is_high (ArcSight.severity i)) insights
    | Dashboard.Medium =>
      List.filter (fun i => ArcSight.is_medium (ArcSight.severity i)) insights
    | Dashboard.Low =>
      List.filter (fun i => ExecutiveSummary.is_low (ArcSight.severity i)) insights
    end.
Proof.
  destruct f; cbn [Dashboard.filteredInsights]; [reflexivity| | |];
    apply List.filter_ext; intros i; rewrite filter_test by discriminate;
    now destruct (ArcSight.severity i).
Qed.

(** X18. With a filter on one severity the dashboard shows the insights of
    that severity, all of them and in their original order, in the section of
    that severity, and the other two sections are empty; with the filter All
    each section holds the insights of its severity in their original order.
    The empty state is shown exactly when all three sections are empty. *)
Theorem dashboard_sections (insights : list ArcSight.Insight)
    (f : Dashboard.FilterType) :
  Dashboard.high
    (Dashboard.groupedInsights (Dashboard.filteredInsights toLowerCase insights f))
  = match f with
    | Dashboard.All | Dashboard.High =>
      List.filter (fun i => ArcSight.is_high (ArcSight.severity i)) insights
    | _ => []
    end
  /\ Dashboard.medium
       (Dashboard.groupedInsights (Dashboard.filteredInsights toLowerCase insights f))
     = match f with
       | Dashboard.All | Dashboard.Medium =>
         List.filter (fun i => ArcSight.is_medium (ArcSight.severity i)) insights
       | _ => []
       end
  /\ Dashboard.low
       (Dashboard.groupedInsights (Dashboard.filteredInsights toLowerCase insights f))
     = match f with
       | Dashboard.All | Dashboard.Low =>
         List.filter (fun i => ExecutiveSummary.is_low (ArcSight.severity i)) insights
       | _ => []
       end
  /\ (Dashboard.filteredInsights toLowerCase insights f = []
      <-> Dashboard.groupedInsights
            (Dashboard.filteredInsights toLowerCase insights f)
          = {| Dashboard.high := []; Dashboard.medium := []; Dashboard.low := [] |}).
Proof.
  rewrite groupedInsights_filters, filteredInsights_by_severity.
  cbn [Dashboard.high Dashboard.medium Dashboard.low].
  split; [|split; [|split]].
  - destruct f; try reflexivity; rewrite filter_filter;
      first [ apply List.filter_ext; intros i; now destruct (ArcSight.severity i)
            | apply filter_none; intros i; now destruct (ArcSight.severity i) ].
  - destruct f; try reflexivity; rewrite filter_filter;
      first [ apply List.filter_ext; intros i; now destruct (ArcSight.severity i)
            | apply filter_none; intros i; now destruct (ArcSight.severity i) ].
  - destruct f; try reflexivity; rewrite filter_filter;
      first [ apply List.filter_ext; intros i; now destruct (ArcSight.severity i)
            | apply filter_none; intros i; now destruct (ArcSight.severity i) ].
  - set (l := match f with
              | Dashboard.All => insights
              | Dashboard.High =>
                List.filter (fun i => ArcSight.is_high (ArcSight.severity i)) insights
              | Dashboard.Medium =>
                List.filter (fun i => ArcSight.is_medium (ArcSight.severity i)) insights
              | Dashboard.Low =>
                List.filter (fun i => ExecutiveSummary.is_low (ArcSight.severity i)) insights
              end).
    split; [now intros ->|].
    destruct l as [|i l]; [reflexivity|].
    cbn [List.filter]. destruct (ArcSight.severity i);
      cbn [ArcSight.is_high ArcSight.is_medium ExecutiveSummary.is_low];
      discriminate.
Qed.

(** X19. The badge of an insight card on the dashboard is red for [high],
    yellow for [medium] and green for [low]. *)
Theorem badge_of_severity (sev : ArcSight.Severity) :
  InsightCard.getSeverityStyles
    (Dashboard.normalizeSeverity toLowerCase (Dashboard.Severity_string sev))
  = match sev with
    | ArcSight.high => js "bg-red-500 text-white"
    | ArcSight.medium => js "bg-yellow-400 text-black"
    | ArcSight.low => js "bg-green-500 text-white"
    end.
Proof.
  assert (L : forall s,
             In s [js "high"; js "medium"; js "low";
                   js "High"; js "Medium"; js "Low"] ->
             toLowerCase s = ArcSight.toLowerCase_ascii s) by exact lowers.
  unfold Dashboard.normalizeSeverity.
  destruct sev; cbn [Dashboard.Severity_string];
    rewrite !L by (cbn [In]; tauto); vm_compute; reflexivity.
Qed.

End Filtered.

Lemma lowers_tags_ascii : Dashboard.lowers_tags ArcSight.toLowerCase_ascii.
Proof. intros s _. reflexivity. Qed.

Lemma dashboard_sections_witness :
  Dashboard.lowers_tags ArcSight.toLowerCase_ascii
  /\ Dashboard.medium
       (Dashboard.groupedInsights
          (Dashboard.filteredInsights ArcSight.toLowerCase_ascii
             [ {| ArcSight.id := 3; ArcSight.title := js "Stripe Integration Blast Radius";
                  ArcSight.severity := ArcSight.medium; ArcSight.summary := js "s";
                  ArcSight.files := None; ArcSight.recommendation := None |} ]
             Dashboard.High))
     = [].
Proof.
  split; [exact lowers_tags_ascii|].
  exact (proj1 (proj2 (dashboard_sections ArcSight.toLowerCase_ascii
                         lowers_tags_ascii
                         [ {| ArcSight.id := 3;
                              ArcSight.title := js "Stripe Integration Blast Radius";
                              ArcSight.severity := ArcSight.medium;
                              ArcSight.summary := js "s";
                              ArcSight.files := None;
                              ArcSight.recommendation := None |} ]
                         Dashboard.High))).
Defined.

Lemma badge_of_severity_witness :
  Dashboard.lowers_tags ArcSight.toLowerCase_ascii
  /\ InsightCard.getSeverityStyles
       (Dashboard.normalizeSeverity ArcSight.toLowerCase_ascii
          (Dashboard.Severity_string ArcSight.medium))
     = js "bg-yellow-400 text-black".
Proof.
  split; [exact lowers_tags_ascii|].
  exact (badge_of_severity ArcSight.toLowerCase_ascii lowers_tags_ascii
           ArcSight.medium).
Defined.

(** X20. Whatever string [normalizeSeverity] is given, and whatever the
    host does to put it in lower case, the badge is one of the three of High,
    Medium and Low: the gray badge of [getSeverityStyles] is never used. A
    string that is neither "high" nor "medium" in lower case gets the green
    badge of Low. *)
Theorem badge_never_gray (toLowerCase : jsstring -> jsstring) (s : jsstring) :
  In (InsightCard.getSeverityStyles (Dashboard.normalizeSeverity toLowerCase s))
     [js "bg-red-500 text-white"; js "bg-yellow-400 text-black";
      js "bg-green-500 text-white"]
  /\ In (Dashboard.normalizeSeverity toLowerCase s)
        [js "High"; js "Medium"; js "Low"]
  /\ (toLowerCase s <> js "high" -> toLowerCase s <> js "medium" ->
      InsightCard.getSeverityStyles (Dashboard.normalizeSeverity toLowerCase s)
      = js "bg-green-500 text-white").
Proof.
  unfold Dashboard.normalizeSeverity.
  destruct (decide (toLowerCase s = js "high")) as [H|H].
  - split; [left; vm_compute; reflexivity|].
    split; [left; reflexivity|]. intros N. now elim N.
  - destruct (decide (toLowerCase s = js "medium")) as [M|M].
    + split; [right; left; vm_compute; reflexivity|].
      split; [right; left; reflexivity|]. intros _ N. now elim N.
    + split; [right; right; left; vm_compute; reflexivity|].
      split; [right; right; left; reflexivity|].
      intros _ _. vm_compute. reflexivity.
Qed.

Lemma badge_never_gray_witness :
  ArcSight.toLowerCase_ascii (js "Critical") <> js "high"
  /\ ArcSight.toLowerCase_ascii (js "Critical") <> js "medium"
  /\ InsightCard.getSeverityStyles
       (Dashboard.normalizeSeverity ArcSight.toLowerCase_ascii (js "Critical"))
     = js "bg-green-500 text-white".
Proof.
  assert (H : ArcSight.toLowerCase_ascii (js "Critical") <> js "high")
    by (vm_compute; discriminate).
  assert (M : ArcSight.toLowerCase_ascii (js "Critical") <> js "medium")
    by (vm_compute; discriminate).
  split; [exact H|]. split; [exact M|].
  exact (proj2 (proj2 (badge_never_gray ArcSight.toLowerCase_ascii (js "Critical")))
           H M).
Defined.

End DashboardFacts.

(** ** [clampScore] on its own results *)

(** X21. [clampScore] is idempotent: a score it returned is returned
    unchanged when clamped again, so a Report read back from its JSON form
    keeps its score. *)
Theorem clampScore_idempotent (v : value) :
  clampScore (VNumber (clampScore v)) = clampScore v.
Proof.
  destruct (clampScore_range v) as (k & Hk & E).
  rewrite E, clampScore_int. f_equal. lia.
Qed.
